(** * Librarian MCP server: file index, persistence and queries

    A shallow embedding of [librarian_mcp_server] ([models.py],
    [indexer.py], [server.py]) and the properties of its index and query
    engine.

    Conventions of the embedding.
    - A Python [str] is a [string]; the characters are taken to be ASCII,
      and [str.lower] is the ASCII lower-casing [lower].
    - A [pathlib.Path] is the list of its parts ([Path.parts]).
    - A Python [int] is a [Z].
    - A function that may raise returns an [outcome]. *)

From Stdlib Require Import ZArith Lia List Ascii String Bool.
From stdpp Require Import base option list strings gmap pretty.

Local Open Scope string_scope.
Local Open Scope Z_scope.

Set Warnings "-register-all".

(** ** Python strings *)

Module PyStr.

(** [c.lower()] for one ASCII character. *)
Definition lower_ascii (c : ascii) : ascii :=
  let n := N_of_ascii c in
  if ((65 <=? n) && (n <=? 90))%N then ascii_of_N (n + 32) else c.

(** [s.lower()] for a string of ASCII characters, the strings this
    development models: there [str.lower] maps each character on its own
    and has no rule that looks at the neighbours (as it has for the Greek
    sigma). *)
Fixpoint lower (s : string) : string :=
  match s with
  | EmptyString => EmptyString
  | String c s' => String (lower_ascii c) (lower s')
  end.

(** [s.isascii()] *)
Fixpoint isascii (s : string) : bool :=
  match s with
  | EmptyString => true
  | String c s' => (N_of_ascii c <? 128)%N && isascii s'
  end.

(** [s.startswith(p)] *)
Fixpoint startswith (s p : string) : bool :=
  match p, s with
  | EmptyString, _ => true
  | String _ _, EmptyString => false
  | String a p', String b s' => Ascii.eqb a b && startswith s' p'
  end.

(** [p in s] for two strings: [p] occurs in [s] at some offset. *)
Fixpoint contains (p s : string) : bool :=
  startswith s p ||
  match s with
  | EmptyString => false
  | String _ s' => contains p s'
  end.

(** [s.rfind(c)]: the index of the last occurrence, [None] for -1. *)
Fixpoint rfind (c : ascii) (s : string) : option nat :=
  match s with
  | EmptyString => None
  | String a s' =>
      match rfind c s' with
      | Some i => Some (S i)
      | None => if Ascii.eqb a c then Some 0%nat else None
      end
  end.

(** [s[i:]] for [0 <= i]. *)
Fixpoint drop (i : nat) (s : string) : string :=
  match i, s with
  | O, _ => s
  | S i', String _ s' => drop i' s'
  | S _, EmptyString => EmptyString
  end.

(** Python's [str.isspace] on one ASCII character. *)
Definition is_space (c : ascii) : bool :=
  let n := N_of_ascii c in
  ((9 <=? n) && (n <=? 13) || (28 <=? n) && (n <=? 32))%N.

Fixpoint lstrip (s : string) : string :=
  match s with
  | String c s' => if is_space c then lstrip s' else s
  | EmptyString => EmptyString
  end.

(** Drops the trailing white space: a character is kept when it is not
    white space or when something is kept after it. *)
Fixpoint rstrip (s : string) : string :=
  match s with
  | EmptyString => EmptyString
  | String c s' =>
      match rstrip s' with
      | EmptyString => if is_space c then EmptyString else String c EmptyString
      | r => String c r
      end
  end.

(** [s.strip()] *)
Definition strip (s : string) : string := rstrip (lstrip s).

(** [sep.join(l)] *)
Fixpoint join (sep : string) (l : list string) : string :=
  match l with
  | [] => ""
  | [x] => x
  | x :: r => x ++ sep ++ join sep r
  end.

End PyStr.

(** ** models.py *)

(** [class FileType(str, Enum)], members in declaration order. *)
Inductive FileType : Set :=
| PYTHON | JAVASCRIPT | TYPESCRIPT | KOTLIN | JAVA | GO | RUST | CPP | C
| CSHARP | RUBY | PHP | SWIFT | MARKDOWN | JSON | YAML | XML | HTML | CSS
| OTHER.

#[global] Instance FileType_eq_dec : EqDecision FileType.
Proof. solve_decision. Defined.

(** [list(FileType)]: iteration over the enumeration. *)
Definition FileType_members : list FileType :=
  [PYTHON; JAVASCRIPT; TYPESCRIPT; KOTLIN; JAVA; GO; RUST; CPP; C;
   CSHARP; RUBY; PHP; SWIFT; MARKDOWN; JSON; YAML; XML; HTML; CSS; OTHER].

(** [t.value] *)
Definition value (t : FileType) : string :=
  match t with
  | PYTHON => "python" | JAVASCRIPT => "javascript"
  | TYPESCRIPT => "typescript" | KOTLIN => "kotlin" | JAVA => "java"
  | GO => "go" | RUST => "rust" | CPP => "cpp" | C => "c"
  | CSHARP => "csharp" | RUBY => "ruby" | PHP => "php" | SWIFT => "swift"
  | MARKDOWN => "markdown" | JSON => "json" | YAML => "yaml" | XML => "xml"
  | HTML => "html" | CSS => "css" | OTHER => "other"
  end.

(** [FileType(s)]: the member whose value is [s]; [None] stands for the
    [ValueError] of the enumeration's lookup. *)
Definition FileType_of_value (s : string) : option FileType :=
  List.find (fun t => bool_decide (value t = s)) FileType_members.

(** [FILE_TYPE_EXTENSIONS], in the insertion order of the dictionary. *)
Definition FILE_TYPE_EXTENSIONS : list (FileType * list string) :=
  [ (PYTHON, [".py"; ".pyi"; ".pyx"; ".pxd"]);
    (JAVASCRIPT, [".js"; ".mjs"; ".cjs"]);
    (TYPESCRIPT, [".ts"; ".tsx"; ".d.ts"]);
    (KOTLIN, [".kt"; ".kts"]);
    (JAVA, [".java"]);
    (GO, [".go"]);
    (RUST, [".rs"]);
    (CPP, [".cpp"; ".cxx"; ".cc"; ".hpp"; ".hxx"; ".h++"]);
    (C, [".c"; ".h"]);
    (CSHARP, [".cs"]);
    (RUBY, [".rb"]);
    (PHP, [".php"]);
    (SWIFT, [".swift"]);
    (MARKDOWN, [".md"; ".markdown"]);
    (JSON, [".json"]);
    (YAML, [".yml"; ".yaml"]);
    (XML, [".xml"]);
    (HTML, [".html"; ".htm"]);
    (CSS, [".css"; ".scss"; ".sass"; ".less"]) ].

(** A [pathlib.Path], as its parts. *)
Definition Path : Type := list string.

(** [path.name]: the final component, empty when there is none.  (For a
    path that is only its anchor the name is empty too; the anchor holds
    no dot, so [suffix] is not affected.) *)
Definition name (p : Path) : string := List.last p "".

(** [path.suffix]: the final component from its last dot on, when that dot
    is neither its first nor its last character. *)
Definition suffix (p : Path) : string :=
  let n := name p in
  match PyStr.rfind "." n with
  | Some i =>
      if bool_decide (0 < i < String.length n - 1)%nat
      then PyStr.drop i n else ""
  | None => ""
  end.

(** The loop of [get_file_type] over the items of a table. *)
Fixpoint first_type_with (ext : string) (tbl : list (FileType * list string))
  : FileType :=
  match tbl with
  | [] => OTHER
  | (file_type, extensions) :: rest =>
      if bool_decide (ext ∈ extensions) then file_type
      else first_type_with ext rest
  end.

Definition get_file_type (file_path : Path) : FileType :=
  let ext := PyStr.lower (suffix file_path) in
  first_type_with ext FILE_TYPE_EXTENSIONS.


(** [datetime]: an instant, counted in microseconds. *)
Definition datetime : Type := Z.

(** [class FileEntry(BaseModel)] *)
Record FileEntry : Type := mkFileEntry {
  path : string;
  type : FileType;
  size : Z;
  modified : datetime;
  hash : string
}.

(** [class RepositoryInfo(BaseModel)] *)
Record RepositoryInfo : Type := mkRepositoryInfo {
  repo_path_str : string;   (* the field [path] *)
  total_files : Z
}.

(** [class WorkspaceIndex(BaseModel)]; [index] is the dictionary from
    section name to entries, of which the code only ever uses the key
    ["files"]. *)
Record WorkspaceIndex : Type := mkWorkspaceIndex {
  version : string;
  last_updated : datetime;
  repository : RepositoryInfo;
  index : gmap string (list FileEntry);
  file_types : list (FileType * list string)
}.

(** The defaults of the fields [version], [index] and [file_types]. *)
Definition new_WorkspaceIndex (last_updated : datetime)
    (repository : RepositoryInfo) : WorkspaceIndex :=
  mkWorkspaceIndex "1.0" last_updated repository
    {[ "files" := [] ]} FILE_TYPE_EXTENSIONS.

(** [self.index.get("files", [])] *)
Definition files (self : WorkspaceIndex) : list FileEntry :=
  default [] (index self !! "files").

(** [len(l)] as a Python integer. *)
Definition len {A} (l : list A) : Z := Z.of_nat (length l).

(** [WorkspaceIndex.add_file]: creates the key when it is missing, appends,
    and stores the new length in [repository.total_files]. *)
Definition add_file (self : WorkspaceIndex) (file_entry : FileEntry)
  : WorkspaceIndex :=
  let index1 :=
    match index self !! "files" with
    | None => <[ "files" := [] ]> (index self)
    | Some _ => index self
    end in
  let index2 :=
    <[ "files" := (default [] (index1 !! "files") ++ [file_entry])%list ]>
      index1 in
  mkWorkspaceIndex (version self) (last_updated self)
    (mkRepositoryInfo (repo_path_str (repository self))
       (len (default [] (index2 !! "files"))))
    index2 (file_types self).

(** [WorkspaceIndex.get_files_by_type] *)
Definition get_files_by_type (self : WorkspaceIndex) (file_type : FileType)
  : list FileEntry :=
  List.filter (fun f => bool_decide (type f = file_type)) (files self).

(** [WorkspaceIndex.search_files] *)
Definition search_files (self : WorkspaceIndex) (pattern : string)
    (case_sensitive : bool) : list FileEntry :=
  let files := files self in
  if negb case_sensitive then
    let pattern := PyStr.lower pattern in
    List.filter (fun f => PyStr.contains pattern (PyStr.lower (path f))) files
  else
    List.filter (fun f => PyStr.contains pattern (path f)) files.

(** ** Python slices *)

(** [l[:limit]]: a negative bound counts from the end of the list and is
    clipped at its start. *)
Definition slice_to {A} (limit : Z) (l : list A) : list A :=
  if limit <? 0 then take (Z.to_nat (Z.max 0 (len l + limit))) l
  else take (Z.to_nat limit) l.

(** ** server.py *)

Module Server.

Definition nl : string := String "010" "".

(** [str(n)] for an integer. *)
Definition str_int (n : Z) : string := pretty n.

(** What a tool computes before it formats its answer: an error message,
    or the list [results]. *)
Definition answer : Type := string + list FileEntry.

(** The [for file in results: output += ...] loops. *)
Fixpoint lines_with (line : FileEntry -> string) (results : list FileEntry)
    (output : string) : string :=
  match results with
  | [] => output
  | file :: rest => lines_with line rest (output ++ line file)
  end.

Definition line_typed (file : FileEntry) : string :=
  "- " ++ path file ++ " (" ++ value (type file) ++ ", "
       ++ str_int (size file) ++ " bytes)" ++ nl.

Definition line_sized (file : FileEntry) : string :=
  "- " ++ path file ++ " (" ++ str_int (size file) ++ " bytes)" ++ nl.

(** [not results] for a list. *)
Definition is_empty {A} (l : list A) : bool :=
  match l with [] => true | _ => false end.

(** *** search_files *)

Definition search_files_results (idx : WorkspaceIndex) (query : string)
    (case_sensitive : bool) (limit : Z) : list FileEntry :=
  slice_to limit (search_files idx query case_sensitive).

Definition search_files (idx : WorkspaceIndex) (query : string)
    (case_sensitive : bool) (limit : Z) : string :=
  let results := search_files_results idx query case_sensitive limit in
  if is_empty results then "No files found matching the pattern."
  else
    lines_with line_typed results
      ("Found " ++ str_int (len results) ++ " file(s) matching '"
                ++ query ++ "':" ++ nl ++ nl).

(** *** search_files_regex *)

(** What a call of [re.compile] does: it returns a pattern, it raises
    [re.error], whose text is the diagnostic, or it raises an exception
    of another class ([OverflowError] for a repeat count that is too
    large, [RecursionError], ...), given by its name. *)
Inductive compiled (Pattern : Type) : Type :=
| Compiles (regex : Pattern)
| ReError (diagnostic : string)
| OtherError (exception : string).
Arguments Compiles {Pattern} regex.
Arguments ReError {Pattern} diagnostic.
Arguments OtherError {Pattern} exception.

(** What a call of the tool does: it returns a value, or an exception,
    given by the name of its class, leaves it. *)
Inductive call (A : Type) : Type :=
| Returned (a : A)
| Escaped (exception : string).
Arguments Returned {A} a.
Arguments Escaped {A} exception.

Section Regex.
(** The module [re]: compiled patterns, [re.compile] and
    [Pattern.search]. *)
Variable Pattern : Type.
Variable re_compile : string -> Z -> compiled Pattern.
Variable re_search : Pattern -> string -> bool.

Definition IGNORECASE : Z := 2.

(** The handler is [except re.error]: an exception of another class is
    not caught. *)
Definition search_files_regex_results (idx : WorkspaceIndex)
    (pattern : string) (case_sensitive : bool) (limit : Z) : call answer :=
  let flags := if case_sensitive then 0 else IGNORECASE in
  match re_compile pattern flags with
  | ReError e => Returned (inl ("Invalid regex pattern: " ++ e))
  | OtherError exception => Escaped exception
  | Compiles regex =>
      let files := files idx in
      Returned
        (inr (slice_to limit
                (List.filter (fun f => re_search regex (path f)) files)))
  end.

Definition search_files_regex (idx : WorkspaceIndex) (pattern : string)
    (case_sensitive : bool) (limit : Z) : call string :=
  match search_files_regex_results idx pattern case_sensitive limit with
  | Escaped exception => Escaped exception
  | Returned (inl message) => Returned message
  | Returned (inr results) =>
      Returned
        (if is_empty results
         then "No files found matching the regex pattern."
         else
           lines_with line_typed results
             ("Found " ++ str_int (len results)
                       ++ " file(s) matching regex '" ++ pattern ++ "':"
                       ++ nl ++ nl))
  end.
End Regex.
Arguments search_files_regex_results {Pattern} _ _ _ _ _ _.
Arguments search_files_regex {Pattern} _ _ _ _ _ _.

(** *** search_by_type *)

(** [pattern] is [Optional[str]]; [if pattern:] holds for a string that is
    present and not empty. *)
Definition truthy (pattern : option string) : bool :=
  match pattern with
  | Some (String _ _) => true
  | _ => false
  end.

Definition search_by_type_results (idx : WorkspaceIndex)
    (file_type : string) (pattern : option string) (limit : Z) : answer :=
  match FileType_of_value (PyStr.lower file_type) with
  | None =>
      let valid_types := PyStr.join ", " (map value FileType_members) in
      inl ("Invalid file type. Valid types are: " ++ valid_types)
  | Some ftype =>
      let results := get_files_by_type idx ftype in
      let results :=
        if truthy pattern then
          let pattern_lower := PyStr.lower (default "" pattern) in
          List.filter
            (fun f => PyStr.contains pattern_lower (PyStr.lower (path f)))
            results
        else results in
      inr (slice_to limit results)
  end.

Definition search_by_type (idx : WorkspaceIndex) (file_type : string)
    (pattern : option string) (limit : Z) : string :=
  match search_by_type_results idx file_type pattern limit with
  | inl message => message
  | inr results =>
      if is_empty results then "No " ++ file_type ++ " files found."
      else
        lines_with line_sized results
          ("Found " ++ str_int (len results) ++ " " ++ file_type
                    ++ " file(s):" ++ nl ++ nl)
  end.

(** *** get_index_stats and the index://stats resource *)

(** [type_counts.get(t, 0)] on a dictionary kept as its items, in
    insertion order. *)
Fixpoint counts_get (t : FileType) (type_counts : list (FileType * Z)) : Z :=
match type_counts with
| [] => 0
| (t', n) :: rest => if bool_decide (t' = t) then n else counts_get t rest
end.

(** [type_counts[t] = n]: an existing key keeps its place, a new one goes
    to the end. *)
Fixpoint counts_set (t : FileType) (n : Z) (type_counts : list (FileType * Z))
  : list (FileType * Z) :=
match type_counts with
| [] => [(t, n)]
| (t', n') :: rest =>
    if bool_decide (t' = t) then (t', n) :: rest
    else (t', n') :: counts_set t n rest
end.

(** The loop [for file in files: type_counts[file.type] = ... + 1;
    total_size += file.size], which both the tool and the resource run. *)
Fixpoint tally (files : list FileEntry) (type_counts : list (FileType * Z))
    (total_size : Z) : list (FileType * Z) * Z :=
match files with
| [] => (type_counts, total_size)
| file :: rest =>
    tally rest
      (counts_set (type file) (counts_get (type file) type_counts + 1)
         type_counts)
      (total_size + size file)
end.

(** [class IndexStats(BaseModel)] *)
Record IndexStats : Type := mkIndexStats {
  stats_total_files : Z;
  stats_total_size : Z;
  stats_file_types : list (FileType * Z);
  stats_last_updated : datetime;
  stats_index_path : string
}.

(** The [IndexStats] that [get_stats_resource] builds, before it is
    written as JSON; [index_path] is [str(self.indexer.index_path)]. *)
Definition get_stats (idx : WorkspaceIndex) (index_path : string)
  : IndexStats :=
let '(type_counts, total_size) := tally (files idx) [] 0 in
mkIndexStats (total_files (repository idx)) total_size type_counts
  (last_updated idx) index_path.

End Server.

(** ** Exceptions *)

(** The exception classes that occur; all of them derive from
    [Exception]. *)
Inductive exn : Set :=
| ValueError | TypeError | KeyError | PermissionError
| YAMLError          (* scanner and parser errors of the YAML reader *)
| ConstructorError   (* a subclass of [YAMLError] *)
| ValidationError.   (* pydantic *)

(** The result of a call: a value, or an exception on its way up. *)
Inductive outcome (A : Type) : Type :=
| Returns (a : A)
| Raises (e : exn).
Arguments Returns {A} a.
Arguments Raises {A} e.

Definition bind {A B} (m : outcome A) (k : A -> outcome B) : outcome B :=
  match m with
  | Returns a => k a
  | Raises e => Raises e
  end.

Notation "x <- m ;; k" := (bind m (fun x => k))
  (at level 100, m at next level, right associativity).

(** [for x in l: body], threading the state the body updates. *)
Fixpoint for_each {A S} (body : S -> A -> outcome S) (l : list A) (s : S)
  : outcome S :=
  match l with
  | [] => Returns s
  | x :: rest => s' <- body s x ;; for_each body rest s'
  end.

(** ** Python values and YAML documents *)

(** The values that [model_dump] produces and [yaml.safe_load] returns. *)
Inductive pyval : Type :=
| PNone
| PStr (s : string)
| PInt (n : Z)
| PDatetime (d : datetime)
| PEnum (t : FileType)
| PList (l : list pyval)
| PDict (items : list (pyval * pyval)).

(** The scalars of the YAML core schema that occur, with their tag. *)
Inductive scalar : Type :=
| SNull                      (* tag:yaml.org,2002:null *)
| SStr (s : string)          (* tag:yaml.org,2002:str *)
| SInt (n : Z)               (* tag:yaml.org,2002:int *)
| STimestamp (d : datetime). (* tag:yaml.org,2002:timestamp *)

(** The representation graph of a YAML document.  The text that the emitter
    writes and the parser reads back is not modelled: it preserves the
    nodes and their tags. *)
Inductive node : Type :=
| ScalarNode (v : scalar)
| SequenceNode (l : list node)               (* tag:yaml.org,2002:seq *)
| MappingNode (l : list (node * node))       (* tag:yaml.org,2002:map *)
| PythonApplyNode (function_name : string) (args : list node).
    (* tag:yaml.org,2002:python/object/apply:function_name *)

(** What a file holds, as the YAML reader sees it. *)
Inductive yaml_text : Type :=
| Unparsable           (* the scanner or the parser rejects the text *)
| EmptyStream          (* no document *)
| Document (n : node).

Module Yaml.

(** [yaml.dump] with its default [Dumper]: [Representer.represent_data].
    Strings, integers, datetimes, lists and dictionaries have
    representers of their own.  A member of [FileType] has none (the
    registry is looked up by exact type), so it falls to
    [represent_object], which writes the result of [__reduce_ex__],
    the class applied to the member's value, under a Python tag. *)
Fixpoint represent (v : pyval) : node :=
  match v with
  | PNone => ScalarNode SNull
  | PStr s => ScalarNode (SStr s)
  | PInt n => ScalarNode (SInt n)
  | PDatetime d => ScalarNode (STimestamp d)
  | PEnum t =>
      PythonApplyNode "librarian_mcp_server.models.FileType"
        [ScalarNode (SStr (value t))]
  | PList l => SequenceNode (map represent l)
  | PDict items =>
      MappingNode (map (fun kv => (represent kv.1, represent kv.2)) items)
  end.

Definition dump (v : pyval) : yaml_text := Document (represent v).

(** A value that is a string: [str] itself or a member of the
    enumeration, which is a string and compares as its value. *)
Definition as_str (v : pyval) : option string :=
  match v with
  | PStr s => Some s
  | PEnum t => Some (value t)
  | _ => None
  end.

(** Equality of two dictionary keys. *)
Definition key_eqb (a b : pyval) : bool :=
  match as_str a, as_str b with
  | Some x, Some y => bool_decide (x = y)
  | None, None =>
      match a, b with
      | PNone, PNone => true
      | PInt x, PInt y => bool_decide (x = y)
      | PDatetime x, PDatetime y => bool_decide (x = y)
      | _, _ => false
      end
  | _, _ => false
  end.

(** [d[k] = v] *)
Fixpoint dict_set (k v : pyval) (items : list (pyval * pyval))
  : list (pyval * pyval) :=
  match items with
  | [] => [(k, v)]
  | (k', v') :: rest =>
      if key_eqb k' k then (k', v) :: rest
      else (k', v') :: dict_set k v rest
  end.

(** [d.get(k)] *)
Fixpoint dict_get (k : pyval) (items : list (pyval * pyval))
  : option pyval :=
  match items with
  | [] => None
  | (k', v') :: rest => if key_eqb k' k then Some v' else dict_get k rest
  end.

Definition hashable (v : pyval) : bool :=
  match v with
  | PList _ | PDict _ => false
  | _ => true
  end.

Definition construct_scalar (v : scalar) : pyval :=
  match v with
  | SNull => PNone
  | SStr s => PStr s
  | SInt n => PInt n
  | STimestamp d => PDatetime d
  end.

(** [yaml.safe_load]: [SafeConstructor.construct_object].  The safe
    constructor knows the tags of the core schema only; any other tag
    ends in [construct_undefined], which raises [ConstructorError], and
    so does a mapping key that is not hashable. *)
Fixpoint construct (n : node) : outcome pyval :=
  match n with
  | ScalarNode v => Returns (construct_scalar v)
  | SequenceNode l =>
      l' <- (fix go (l : list node) : outcome (list pyval) :=
               match l with
               | [] => Returns []
               | x :: rest =>
                   x' <- construct x ;; rest' <- go rest ;;
                   Returns (x' :: rest')
               end) l ;;
      Returns (PList l')
  | MappingNode l =>
      d <- (fix go (l : list (node * node)) (acc : list (pyval * pyval))
              : outcome (list (pyval * pyval)) :=
              match l with
              | [] => Returns acc
              | (kn, vn) :: rest =>
                  k <- construct kn ;;
                  if hashable k then
                    v <- construct vn ;; go rest (dict_set k v acc)
                  else Raises ConstructorError
              end) l [] ;;
      Returns (PDict d)
  | PythonApplyNode _ _ => Raises ConstructorError
  end.

Definition safe_load (f : yaml_text) : outcome pyval :=
  match f with
  | Unparsable => Raises YAMLError
  | EmptyStream => Returns PNone
  | Document n => construct n
  end.

End Yaml.

(** ** Operators on Python values *)

Module Py.

(** [k in data] for a string [k]: key membership in a dictionary,
    element membership in a list, substring in a string; the other
    values are not containers. *)
Definition contains (k : string) (data : pyval) : outcome bool :=
  match data with
  | PDict items => Returns (bool_decide (is_Some (Yaml.dict_get (PStr k) items)))
  | PList l => Returns (existsb (Yaml.key_eqb (PStr k)) l)
  | PStr s => Returns (PyStr.contains k s)
  | PEnum t => Returns (PyStr.contains k (value t))
  | PNone | PInt _ | PDatetime _ => Raises TypeError
  end.

(** [data[k]] for a string [k]. *)
Definition getitem (data : pyval) (k : string) : outcome pyval :=
  match data with
  | PDict items =>
      match Yaml.dict_get (PStr k) items with
      | Some v => Returns v
      | None => Raises KeyError
      end
  | _ => Raises TypeError
  end.

(** [data[k] = v] for a string [k]. *)
Definition setitem (data : pyval) (k : string) (v : pyval) : outcome pyval :=
  match data with
  | PDict items => Returns (PDict (Yaml.dict_set (PStr k) v items))
  | _ => Raises TypeError
  end.

(** [iter(data)]: the elements of a list, the keys of a dictionary, the
    characters of a string. *)
Definition iter (data : pyval) : outcome (list pyval) :=
  match data with
  | PList l => Returns l
  | PDict items => Returns (map fst items)
  | PStr s => Returns (map (fun c => PStr (String c "")) (list_ascii_of_string s))
  | PEnum t =>
      Returns (map (fun c => PStr (String c "")) (list_ascii_of_string (value t)))
  | PNone | PInt _ | PDatetime _ => Raises TypeError
  end.

(** The keyword arguments that unpacking a dictionary in a call
    passes: its keys must all be strings. *)
Fixpoint keywords (items : list (pyval * pyval))
  : outcome (list (string * pyval)) :=
  match items with
  | [] => Returns []
  | (PStr k, v) :: rest => r <- keywords rest ;; Returns ((k, v) :: r)
  | (PEnum t, v) :: rest => r <- keywords rest ;; Returns ((value t, v) :: r)
  | _ :: _ => Raises TypeError
  end.

End Py.

(** ** indexer.py *)

Module Indexer.

(** A [pathspec.PathSpec]: the patterns it was built from. *)
Record PathSpec : Type := mkPathSpec { patterns : list string }.

(** An entry of a directory, with what the calls on it answer:
    [stat] and the content are absent when the call fails.  The tree is
    one that stays as it is during the scan: listing a directory gives its
    entries or raises [PermissionError]; a listing that fails with
    another error, which would leave [_scan_directory] as it is raised,
    is not part of the model. *)
Inductive item : Type :=
| RegularFile (name : string) (stat : option (Z * datetime))
    (content : option string)
| Directory (name : string) (entries : option (list item))
    (* [None]: listing the directory raises [PermissionError] *)
| Special (name : string)   (* neither [is_file()] nor [is_dir()] *)
| Denied (name : string).   (* [is_file()] raises [PermissionError] *)

(** The part of the world the indexer touches: the lines of the
    repository's [.gitignore], the entries of its root directory, the
    persisted [workspace.yml], the clock and the standard output. *)
Record world : Type := mkWorld {
  gitignore : option (list string);
  listing : option (list item);
  index_file : option yaml_text;
  now : datetime;
  stdout : list string
}.

Definition print (line : string) (w : world) : world :=
  mkWorld (gitignore w) (listing w) (index_file w) (now w)
    (stdout w ++ [line])%list.

Definition write_index_file (text : yaml_text) (w : world) : world :=
  mkWorld (gitignore w) (listing w) (Some text) (now w) (stdout w).

(** [class FileIndexer] *)
Record FileIndexer : Type := mkFileIndexer {
  repo_path : Path;
  index_path : Path;
  _gitignore_spec : option PathSpec
}.

(** [str(path)] *)
Definition str_path (p : Path) : string :=
  match p with
  | [] => "."
  | "/" :: rest => "/" ++ PyStr.join "/" rest
  | _ => PyStr.join "/" p
  end.

(** [path.is_absolute()] *)
Definition is_absolute (p : Path) : bool :=
  match p with
  | a :: _ => bool_decide (a = "/")
  | [] => false
  end.

(** [path.relative_to(other)]: [other] must be a leading part of [path];
    the empty path is one only of a path that is not absolute. *)
Definition relative_to (path other : Path) : outcome Path :=
  if bool_decide (other `prefix_of` path)
     && negb (Server.is_empty other && is_absolute path)
  then Returns (drop (length other) path)
  else Raises ValueError.

(** [FileIndexer._load_gitignore] *)
Definition _load_gitignore (w : world) : option PathSpec :=
  match gitignore w with
  | None => None
  | Some f =>
      let patterns :=
        map PyStr.strip
          (List.filter
             (fun line =>
                negb (Server.is_empty (list_ascii_of_string (PyStr.strip line)))
                && negb (PyStr.startswith line "#"))
             f) in
      Some (mkPathSpec (patterns ++ [".git/"; ".claude/"])%list)
  end.

(** [FileIndexer.__init__] with a repository path given. *)
Definition init (repo_path : Path) (w : world) : FileIndexer :=
  mkFileIndexer repo_path
    (repo_path ++ [".claude"; "workspace"; "workspace.yml"])%list
    (_load_gitignore w).

Definition ignore_dirs : gset string :=
  {[ "node_modules"; "__pycache__"; "venv"; "env"; "build"; "dist";
     "target" ]}.

(** [if self._gitignore_spec:] a [PathSpec] has a length, the number of
    its patterns, and is true when that is not zero. *)
Definition spec_truthy (s : option PathSpec) : option PathSpec :=
  match s with
  | Some spec => if Server.is_empty (patterns spec) then None else Some spec
  | None => None
  end.

Section Libraries.
(** [PathSpec.match_file] of the library [pathspec]. *)
Variable match_file : PathSpec -> string -> bool.
(** [hashlib.sha256(content).hexdigest()] *)
Variable sha256_hexdigest : string -> string.
(** [datetime.fromisoformat] on a string; [None]: [ValueError]. *)
Variable fromisoformat : string -> option datetime.
(** The validation that constructing a [WorkspaceIndex] from keyword
    arguments runs; [None]: [ValidationError]. *)
Variable validate : list (string * pyval) -> option WorkspaceIndex.
(** [str(e)] for an exception. *)
Variable describe : exn -> string.

(** [FileIndexer._should_ignore] *)
Definition _should_ignore (self : FileIndexer) (path : Path)
  : outcome bool :=
  match spec_truthy (_gitignore_spec self) with
  | Some spec =>
      match relative_to path (repo_path self) with
      | Returns rel_path => Returns (match_file spec (str_path rel_path))
      | Raises ValueError => Returns true
      | Raises e => Raises e
      end
  | None =>
      if existsb (fun part => PyStr.startswith part ".") path
      then Returns true
      else if existsb (fun part => bool_decide (part ∈ ignore_dirs)) path
      then Returns true
      else Returns false
  end.

(** [FileIndexer._hash_file] *)
Definition _hash_file (content : option string) : string :=
  match content with
  | Some bytes => sha256_hexdigest bytes
  | None => ""
  end.

Definition item_name (it : item) : string :=
  match it with
  | RegularFile n _ _ | Directory n _ | Special n | Denied n => n
  end.

Section Loop.
(** What one entry adds to [files]. *)
Variable step : item -> outcome (list FileEntry).

(** The [for item in directory.iterdir()] loop: the files gathered
    and the exception that stopped it, if any. *)
Fixpoint scan_loop (entries : list item) (files : list FileEntry)
  : list FileEntry * option exn :=
  match entries with
  | [] => (files, None)
  | it :: rest =>
      match step it with
      | Returns found => scan_loop rest (files ++ found)%list
      | Raises e => (files, Some e)
      end
  end.
End Loop.

(** [try: ... except PermissionError: pass] followed by
    [return files]. *)
Definition scan_finish (r : list FileEntry * option exn)
  : outcome (list FileEntry) :=
  match r with
  | (files, None) => Returns files
  | (files, Some PermissionError) => Returns files
  | (_, Some e) => Raises e
  end.

(** The body of the loop of [_scan_directory] for one entry of
    [directory]; a sub-directory is scanned by the recursive call.  The
    calls [is_file()] and [is_dir()] are outside the inner [try]: a
    [PermissionError] from them goes to the handler around the loop. *)
Fixpoint scan_item (self : FileIndexer) (directory : Path) (it : item)
  : outcome (list FileEntry) :=
  let path := (directory ++ [item_name it])%list in
  ignored <- _should_ignore self path ;;
  if (ignored : bool) then Returns []
  else
    match it with
    | RegularFile _ stat content =>
        match stat, relative_to path (repo_path self) with
        | Some (st_size, st_mtime), Returns rel_path =>
            Returns [ mkFileEntry (str_path rel_path) (get_file_type path)
                        st_size st_mtime (_hash_file content) ]
        | _, _ => Returns []    (* [except Exception: continue] *)
        end
    | Directory _ None => Returns []
    | Directory _ (Some entries) =>
        scan_finish (scan_loop (scan_item self path) entries [])
    | Special _ => Returns []
    | Denied _ => Raises PermissionError
    end.

(** [FileIndexer._scan_directory] on the repository root. *)
Definition _scan_directory (self : FileIndexer) (w : world)
  : outcome (list FileEntry) :=
  match listing w with
  | None => Returns []
  | Some entries =>
      scan_finish (scan_loop (scan_item self (repo_path self)) entries [])
  end.

(** [FileIndexer.create_index] *)
Definition create_index (self : FileIndexer) (w : world)
  : outcome WorkspaceIndex * world :=
  let w := print ("Indexing repository at: " ++ str_path (repo_path self)) w in
  match _scan_directory self w with
  | Raises e => (Raises e, w)
  | Returns files =>
      let repo_info :=
        mkRepositoryInfo (str_path (repo_path self)) (len files) in
      let index := new_WorkspaceIndex (now w) repo_info in
      let index := foldl add_file index files in
      let w :=
        print ("Indexed " ++ Server.str_int (len files) ++ " files") w in
      (Returns index, w)
  end.

(** [WorkspaceIndex.model_dump]: in its default mode the datetimes and
    the members of the enumeration are kept as they are. *)
Definition dump_entry (f : FileEntry) : pyval :=
  PDict [ (PStr "path", PStr (path f));
          (PStr "type", PEnum (type f));
          (PStr "size", PInt (size f));
          (PStr "modified", PDatetime (modified f));
          (PStr "hash", PStr (hash f)) ].

Definition model_dump (idx : WorkspaceIndex) : pyval :=
  PDict [ (PStr "version", PStr (version idx));
          (PStr "last_updated", PDatetime (last_updated idx));
          (PStr "repository",
            PDict [ (PStr "path", PStr (repo_path_str (repository idx)));
                    (PStr "total_files",
                      PInt (total_files (repository idx))) ]);
          (PStr "index",
            PDict (map (fun kv => (PStr kv.1, PList (map dump_entry kv.2)))
                     (map_to_list (index idx))));
          (PStr "file_types",
            PDict (map (fun kv => (PEnum kv.1, PList (map PStr kv.2)))
                     (file_types idx))) ].

(** [FileIndexer.save_index], for a call in which [mkdir], [open] and
    the write succeed: the world it leaves. *)
Definition save_index (self : FileIndexer) (index : WorkspaceIndex)
    (w : world) : world :=
  let index_dict := model_dump index in
  let w := write_index_file (Yaml.dump index_dict) w in
  print ("Index saved to: " ++ str_path (index_path self)) w.

(** [datetime.fromisoformat(v)]: the argument must be a string. *)
Definition fromisoformat_of (v : pyval) : outcome datetime :=
  match Yaml.as_str v with
  | Some s =>
      match fromisoformat s with
      | Some d => Returns d
      | None => Raises ValueError
      end
  | None => Raises TypeError
  end.

(** [if k in data: data[k] = datetime.fromisoformat(data[k])] *)
Definition convert_date (k : string) (data : pyval) : outcome pyval :=
  has <- Py.contains k data ;;
  if (has : bool) then
    v <- Py.getitem data k ;;
    d <- fromisoformat_of v ;;
    Py.setitem data k (PDatetime d)
  else Returns data.

(** The [for file_data in data["index"]["files"]] loop; the
    dictionaries it updates are the elements of the list. *)
Definition convert_files (data : pyval) : outcome pyval :=
  idx <- Py.getitem data "index" ;;
  fl <- Py.getitem idx "files" ;;
  elements <- Py.iter fl ;;
  elements' <- for_each
                 (fun done file_data =>
                    file_data' <- convert_date "modified" file_data ;;
                    Returns (done ++ [file_data'])%list)
                 elements [] ;;
  match fl with
  | PList _ =>
      idx' <- Py.setitem idx "files" (PList elements') ;;
      Py.setitem data "index" idx'
  | _ => Returns data
  end.

(** The body of the [try] of [load_index]. *)
Definition load_body (text : yaml_text) : outcome WorkspaceIndex :=
  data <- Yaml.safe_load text ;;
  data <- convert_date "last_updated" data ;;
  has_index <- Py.contains "index" data ;;
  has_files <- (if (has_index : bool)
                then idx <- Py.getitem data "index" ;; Py.contains "files" idx
                else Returns false) ;;
  data <- (if (has_files : bool) then convert_files data
           else Returns data) ;;
  match data with
  | PDict items =>
      kw <- Py.keywords items ;;
      match validate kw with
      | Some index => Returns index
      | None => Raises ValidationError
      end
  | _ => Raises TypeError
  end.

(** [except Exception]: every class of [exn] derives from
    [Exception]. *)
Definition is_Exception (e : exn) : bool :=
  match e with
  | ValueError | TypeError | KeyError | PermissionError | YAMLError
  | ConstructorError | ValidationError => true
  end.

(** [FileIndexer.load_index] *)
Definition load_index (self : FileIndexer) (w : world)
  : outcome (option WorkspaceIndex) * world :=
  match index_file w with
  | None => (Returns None, w)
  | Some text =>
      match load_body text with
      | Returns index => (Returns (Some index), w)
      | Raises e =>
          if is_Exception e
          then (Returns None, print ("Error loading index: " ++ describe e) w)
          else (Raises e, w)
      end
  end.

(** [FileIndexer.refresh_index] *)
Definition refresh_index (self : FileIndexer) (w : world)
  : outcome WorkspaceIndex * world :=
  create_index self w.

(** A call of [save_index]: [failure] is the exception that [mkdir],
    [open] or the write raises, if one of them does.  Nothing in
    [save_index] catches it.  What a failed call leaves on the disk is
    not modelled: the world is passed on as it was. *)
Definition save_index_call (failure : option exn) (self : FileIndexer)
    (index : WorkspaceIndex) (w : world) : outcome unit * world :=
  match failure with
  | Some e => (Raises e, w)
  | None => (Returns tt, save_index self index w)
  end.

(** [FileIndexer.get_or_create_index]; [failure] is for its call of
    [save_index]. *)
Definition get_or_create_index (failure : option exn) (self : FileIndexer)
    (w : world) : outcome WorkspaceIndex * world :=
  match load_index self w with
  | (Raises e, w) => (Raises e, w)
  | (Returns None, w) =>
      let w := print "No existing index found. Creating new index..." w in
      match create_index self w with
      | (Returns index, w) =>
          match save_index_call failure self index w with
          | (Returns _, w) => (Returns index, w)
          | (Raises e, w) => (Raises e, w)
          end
      | (Raises e, w) => (Raises e, w)
      end
  | (Returns (Some index), w) =>
      (Returns index,
       print ("Loaded existing index with "
                ++ Server.str_int (total_files (repository index))
                ++ " files") w)
  end.

End Libraries.

(** [path.parent]: the path without its final component; the root and
    the empty path are their own parents. *)
Definition parent (p : Path) : Path :=
match p with
| [] => []
| [a] => if bool_decide (a = "/") then p else []
| _ => removelast p
end.

(** The loop of [_find_repo_root]: [Some (Some r)] when it returns [r],
    [Some None] when it ends without returning, [None] when the fuel is
    used up.  [path_exists] is [Path.exists]. *)
Fixpoint find_repo_root_loop (path_exists : Path -> bool) (fuel : nat)
    (current : Path) : option (option Path) :=
match fuel with
| O => None
| S fuel' =>
    if bool_decide (current <> parent current) then
      if path_exists (current ++ [".git"])%list then Some (Some current)
      else find_repo_root_loop path_exists fuel' (parent current)
    else Some None
end.

(** [FileIndexer._find_repo_root], from the working directory [cwd]: an
    outcome of the loop, with fuel enough for every component of
    [cwd]. *)
Definition _find_repo_root (path_exists : Path -> bool) (cwd : Path)
  : option Path :=
match find_repo_root_loop path_exists (S (length cwd)) cwd with
| Some (Some found) => Some found
| Some None => Some cwd
| None => None
end.

End Indexer.

(** * Specification *)

(** [p] occurs in [s]. *)
Definition is_substring (p s : string) : Prop :=
  exists a b : string, s = a ++ p ++ b.

(** [repository.total_files] is the number of entries. *)
Definition counted (idx : WorkspaceIndex) : Prop :=
  total_files (repository idx) = len (files idx).

(** The path of [f] contains the pattern, both lower-cased first unless
    the search is case-sensitive. *)
Definition path_matches (pattern : string) (case_sensitive : bool)
    (f : FileEntry) : Prop :=
  if case_sensitive then is_substring pattern (path f)
  else is_substring (PyStr.lower pattern) (PyStr.lower (path f)).

(** The substring search returns the entries whose path matches, in the
    order of the index, cut to the first [limit] of them. *)
Definition substring_search_law (idx : WorkspaceIndex) (pattern : string)
    (case_sensitive : bool) (limit : Z) : Prop :=
  exists keep : FileEntry -> bool,
    (forall f, keep f = true <-> path_matches pattern case_sensitive f) /\
    Server.search_files_results idx pattern case_sensitive limit
    = take (Z.to_nat limit) (List.filter keep (files idx)).

(** An entry with its path lower-cased, and an index with all paths
    lower-cased. *)
Definition lower_entry (f : FileEntry) : FileEntry :=
  mkFileEntry (PyStr.lower (path f)) (type f) (size f) (modified f) (hash f).

Definition lower_paths (idx : WorkspaceIndex) : WorkspaceIndex :=
  mkWorkspaceIndex (version idx) (last_updated idx) (repository idx)
    (fmap (map lower_entry) (index idx)) (file_types idx).

(** The index of the server's tests. *)
Definition sample_files : list FileEntry :=
  [ mkFileEntry "src/main.py" PYTHON 1024 0 "abc123";
    mkFileEntry "src/utils.py" PYTHON 512 0 "def456";
    mkFileEntry "frontend/app.js" JAVASCRIPT 2048 0 "ghi789";
    mkFileEntry "frontend/App.tsx" TYPESCRIPT 3072 0 "jkl012" ].

Definition sample_index : WorkspaceIndex :=
  foldl add_file
    (new_WorkspaceIndex 0 (mkRepositoryInfo "/test/repo" 4)) sample_files.

(** [s] names the type [t], whatever its capitalization. *)
Definition names_type (s : string) (t : FileType) : Prop :=
  PyStr.lower s = value t.

(** [f] has the type [t] and, when a pattern is given, its path contains
    the pattern, both lower-cased. *)
Definition type_matches (t : FileType) (pattern : option string)
    (f : FileEntry) : Prop :=
  type f = t /\
  match pattern with
  | Some p => is_substring (PyStr.lower p) (PyStr.lower (path f))
  | None => True
  end.

(** The search by type: when the name is not one of the valid names, an
    error whose message is a heading followed by the valid names, which
    are the values of the types, each of them once and nothing else,
    separated by a comma and a space; otherwise the entries of that type
    that match the optional pattern, cut to the first [limit] of them. *)
Definition type_search_law (idx : WorkspaceIndex) (file_type : string)
    (pattern : option string) (limit : Z) : Prop :=
  ((forall t, ~ names_type file_type t) ->
   exists (message : string) (names : list string),
     Server.search_by_type_results idx file_type pattern limit = inl message /\
     Server.search_by_type idx file_type pattern limit = message /\
     message = "Invalid file type. Valid types are: " ++ PyStr.join ", " names /\
     NoDup names /\
     forall n, n ∈ names <-> exists t, n = value t)
  /\ (forall t, names_type file_type t ->
      exists keep : FileEntry -> bool,
        (forall f, keep f = true <-> type_matches t pattern f) /\
        Server.search_by_type_results idx file_type pattern limit
        = inr (take (Z.to_nat limit) (List.filter keep (files idx)))).

(** The search by regular expression, for an engine [re_compile],
    [re_search]: when the compiler raises [re.error], the tool returns a
    message that holds the compiler's diagnostic; when the pattern
    compiles, the entries whose path the pattern matches somewhere, cut
    to the first [limit] of them; when the compiler raises an exception
    of another class, that exception leaves the tool. *)
Definition regex_search_law {Pattern : Type}
    (re_compile : string -> Z -> Server.compiled Pattern)
    (re_search : Pattern -> string -> bool)
    (idx : WorkspaceIndex) (pattern : string) (case_sensitive : bool)
    (limit : Z) : Prop :=
  match re_compile pattern (if case_sensitive then 0 else Server.IGNORECASE) with
  | Server.ReError diagnostic =>
      exists message,
        Server.search_files_regex_results re_compile re_search idx pattern
          case_sensitive limit = Server.Returned (inl message) /\
        Server.search_files_regex re_compile re_search idx pattern
          case_sensitive limit = Server.Returned message /\
        is_substring diagnostic message
  | Server.Compiles regex =>
      Server.search_files_regex_results re_compile re_search idx pattern
        case_sensitive limit
      = Server.Returned
          (inr (take (Z.to_nat limit)
                  (List.filter (fun f => re_search regex (path f))
                     (files idx))))
  | Server.OtherError exception =>
      Server.search_files_regex re_compile re_search idx pattern
        case_sensitive limit = Server.Escaped exception
  end.

(** An engine for the examples, which agrees with [re] on the patterns
    used in them: a pattern with an opening bracket and no closing one is
    rejected with the diagnostic [re] gives; a repeat count of 2^32 is
    more than the compiler can hold, and it raises [OverflowError]; any
    other pattern is searched for as it is written, case folded when the
    flag asks for it. *)
Definition sample_compile (pattern : string) (flags : Z)
  : Server.compiled (string * bool) :=
  if PyStr.contains "[" pattern && negb (PyStr.contains "]" pattern)
  then Server.ReError "unterminated character set at position 0"
  else if PyStr.contains "{4294967296}" pattern
  then Server.OtherError "OverflowError"
  else Server.Compiles (pattern, bool_decide (flags = Server.IGNORECASE)).

Definition sample_search (regex : string * bool) (s : string) : bool :=
  if regex.2 then PyStr.contains (PyStr.lower regex.1) (PyStr.lower s)
  else PyStr.contains regex.1 s.

(** The path lies outside the repository root. *)
Definition outside (self : Indexer.FileIndexer) (p : Path) : Prop :=
  ~ (Indexer.repo_path self `prefix_of` p).

(** A component of the path starts with a dot or is one of the
    directories of the fixed list. *)
Definition hidden_or_denied (p : Path) : Prop :=
  exists part : string,
    part ∈ p /\
    (PyStr.startswith part "." = true \/ part ∈ Indexer.ignore_dirs).

(** A path outside the repository root is ignored. *)
Definition outside_is_ignored
    (match_file : Indexer.PathSpec -> string -> bool)
    (self : Indexer.FileIndexer) (p : Path) : Prop :=
  outside self p -> Indexer._should_ignore match_file self p = Returns true.

(** A world with no [.gitignore], an empty repository and no persisted
    index. *)
Definition bare_world : Indexer.world :=
  Indexer.mkWorld None (Some []) None 0 [].



(** The characters of the string are all ASCII. *)
Definition ascii_only (s : string) : Prop := PyStr.isascii s = true.

(** The string holds no dot. *)
Definition dot_free (s : string) : Prop := PyStr.rfind "." s = None.

(** The number of entries of type [t]. *)
Definition count_of_type (t : FileType) (l : list FileEntry) : Z :=
  len (List.filter (fun f => bool_decide (type f = t)) l).

(** The sum of the sizes. *)
Definition sum_of_sizes (l : list FileEntry) : Z :=
  foldr (fun f acc => size f + acc) 0 l.

(** The repository of the indexer's tests. *)
Definition sample_listing : list Indexer.item :=
  [ Indexer.Directory ".git" (Some []);
    Indexer.Directory "src"
      (Some [ Indexer.RegularFile "main.py" (Some (14, 0))
                (Some "print('hello')");
              Indexer.RegularFile "utils.py" (Some (18, 0))
                (Some "def helper(): pass") ]);
    Indexer.Directory "js"
      (Some [ Indexer.RegularFile "app.js" (Some (19, 0))
                (Some "console.log('test')");
              Indexer.RegularFile "component.tsx" (Some (24, 0))
                (Some "export default Component") ]);
    Indexer.RegularFile "test.log" (Some (11, 0)) (Some "log content");
    Indexer.Directory "node_modules"
      (Some [ Indexer.RegularFile "package.js" (Some (6, 0))
                (Some "module") ]) ].

(** * Properties *)

(** ** Strings *)

Lemma lower_ascii_idem (c : ascii) :
  PyStr.lower_ascii (PyStr.lower_ascii c) = PyStr.lower_ascii c.
Proof. destruct c as [[] [] [] [] [] [] [] []]; reflexivity. Qed.

Lemma lower_idem (s : string) : PyStr.lower (PyStr.lower s) = PyStr.lower s.
Proof.
  induction s as [|c s IH]; simpl; [reflexivity|].
  now rewrite lower_ascii_idem, IH.
Qed.

Lemma startswith_spec (s p : string) :
  PyStr.startswith s p = true <-> exists b, s = p ++ b.
Proof.
  revert s; induction p as [|a p IH]; intros s; simpl.
  - split; [intros _; now exists s | intros _; now destruct s].
  - destruct s as [|b s].
    + split; [discriminate | intros [r Hr]; discriminate].
    + simpl. rewrite andb_true_iff, Ascii.eqb_eq, IH. split.
      * intros [-> [r ->]]. now exists r.
      * intros [r Hr]. injection Hr as -> ->. split; [reflexivity | now exists r].
Qed.

Lemma contains_spec (p s : string) :
  PyStr.contains p s = true <-> is_substring p s.
Proof.
  unfold is_substring. induction s as [|c s IH].
  - change (PyStr.contains p "") with (PyStr.startswith "" p || false).
    rewrite orb_false_r, startswith_spec. split.
    + intros [b Hb]. now exists "", b.
    + intros [a [b Hab]]. destruct a; [now exists b | discriminate].
  - change (PyStr.contains p (String c s))
      with (PyStr.startswith (String c s) p || PyStr.contains p s).
    rewrite orb_true_iff, startswith_spec, IH. split.
    + intros [[b Hb] | [a [b Hab]]].
      * now exists "", b.
      * exists (String c a), b. simpl. now rewrite Hab.
    + intros [a [b Hab]]. destruct a as [|c' a].
      * left. now exists b.
      * right. simpl in Hab. injection Hab as -> ->. now exists a, b.
Qed.

(** ** Classification of files *)

Lemma first_type_with_spec (ext : string) (tbl : list (FileType * list string)) :
  (first_type_with ext tbl = OTHER /\
   forall t exts, (t, exts) ∈ tbl -> ext ∉ exts)
  \/ (exists pre exts post,
        tbl = (pre ++ (first_type_with ext tbl, exts) :: post)%list /\
        ext ∈ exts /\
        forall t' exts', (t', exts') ∈ pre -> ext ∉ exts').
Proof.
  induction tbl as [|[t exts] tbl IH]; simpl.
  - left. split; [reflexivity|]. intros t exts H. inversion H.
  - case_bool_decide as Hin.
    + right. exists [], exts, tbl. split; [reflexivity|]. split; [assumption|].
      intros t' exts' H. inversion H.
    + destruct IH as [[Ho Hnone] | (pre & exts0 & post & Heq & Hin0 & Hpre)].
      * left. split; [assumption|]. intros t' exts' H.
        apply elem_of_cons in H as [[= -> ->] | H]; [assumption | eauto].
      * right. exists ((t, exts) :: pre), exts0, post.
        split; [simpl; now rewrite <- Heq|]. split; [assumption|].
        intros t' exts' H.
        apply elem_of_cons in H as [[= -> ->] | H]; [assumption | eauto].
Qed.

(** C8. The classifier is a total function of the lower-cased suffix of
    the path's final component: either no extension list of the table
    holds that suffix and the answer is [OTHER], or the answer is the
    first type of the table, in its order, whose list holds it; two paths
    whose suffixes agree up to case get the same type.  (The embedding is
    a total function: no exception can arise.) *)
Theorem get_file_type_first_match (p : Path) :
  let ext := PyStr.lower (suffix p) in
  ((get_file_type p = OTHER /\
    forall t exts, (t, exts) ∈ FILE_TYPE_EXTENSIONS -> ext ∉ exts)
   \/ (exists pre exts post,
         FILE_TYPE_EXTENSIONS
           = (pre ++ (get_file_type p, exts) :: post)%list /\
         ext ∈ exts /\
         forall t' exts', (t', exts') ∈ pre -> ext ∉ exts'))
  /\ (forall q : Path,
        PyStr.lower (suffix q) = ext -> get_file_type q = get_file_type p).
Proof.
  intros ext. split.
  - apply first_type_with_spec.
  - intros q Hq. unfold get_file_type. now rewrite Hq.
Qed.

(** ** The count of files *)

Lemma files_add_file (idx : WorkspaceIndex) (fe : FileEntry) :
  files (add_file idx fe) = (files idx ++ [fe])%list.
Proof.
  unfold files, add_file; simpl.
  rewrite lookup_insert_eq; simpl.
  destruct (index idx !! "files") as [l|] eqn:E; simpl.
  - now rewrite E.
  - now rewrite lookup_insert_eq.
Qed.

Lemma counted_add_file (idx : WorkspaceIndex) (fe : FileEntry) :
  counted (add_file idx fe).
Proof.
  unfold counted. rewrite files_add_file.
  unfold add_file, files; simpl. rewrite lookup_insert_eq; simpl.
  destruct (index idx !! "files") as [l|] eqn:E; simpl.
  - now rewrite E.
  - now rewrite lookup_insert_eq.
Qed.


Lemma counted_foldl_add_file (l : list FileEntry) (idx : WorkspaceIndex) :
  counted idx -> counted (foldl add_file idx l).
Proof.
  revert idx; induction l as [|fe l IH]; intros idx H; simpl; [assumption|].
  apply IH, counted_add_file.
Qed.

Lemma relative_to_outcome (path other : Path) :
  (exists rel, Indexer.relative_to path other = Returns rel) \/
  Indexer.relative_to path other = Raises ValueError.
Proof. unfold Indexer.relative_to. destruct (_ && _); eauto. Qed.

Section Scan.
Variable match_file : Indexer.PathSpec -> string -> bool.
Variable sha256_hexdigest : string -> string.

Lemma should_ignore_returns (self : Indexer.FileIndexer) (p : Path) :
  exists b, Indexer._should_ignore match_file self p = Returns b.
Proof.
  unfold Indexer._should_ignore.
  destruct (Indexer.spec_truthy _) as [spec|].
  - destruct (relative_to_outcome p (Indexer.repo_path self)) as [[rel ->] | ->];
      eauto.
  - repeat case_match; eauto.
Qed.

Lemma scan_loop_returns (step : Indexer.item -> outcome (list FileEntry))
    (entries : list Indexer.item) :
  Forall (fun it => (exists found, step it = Returns found)
                    \/ step it = Raises PermissionError) entries ->
  forall files, exists all,
    Indexer.scan_finish (Indexer.scan_loop step entries files) = Returns all.
Proof.
  induction 1 as [|it entries [[found Hit] | Hit] _ IH]; intros files; simpl.
  - eauto.
  - rewrite Hit. apply IH.
  - rewrite Hit. simpl. eauto.
Qed.

Lemma scan_item_returns (self : Indexer.FileIndexer) (it : Indexer.item) :
  forall directory,
    (exists found,
       Indexer.scan_item match_file sha256_hexdigest self directory it
       = Returns found)
    \/ Indexer.scan_item match_file sha256_hexdigest self directory it
       = Raises PermissionError.
Proof.
  revert it. fix IH 1. intros it directory.
  destruct it as [n st c | n [entries|] | n | n]; simpl;
    destruct (should_ignore_returns self (directory ++ [n])%list) as [[] ->];
    simpl; eauto.
  - left. repeat case_match; eauto.
  - left. set (step := Indexer.scan_item _ _ _ _).
    apply scan_loop_returns.
    subst step. induction entries as [|e entries IHe]; constructor.
    + apply IH.
    + apply IHe.
Qed.

Lemma scan_directory_returns (self : Indexer.FileIndexer) (w : Indexer.world) :
  exists found,
    Indexer._scan_directory match_file sha256_hexdigest self w = Returns found.
Proof.
  unfold Indexer._scan_directory. destruct (Indexer.listing w) as [entries|];
    [|eauto].
  apply scan_loop_returns.
  apply Forall_forall. intros it _. apply scan_item_returns.
Qed.
End Scan.

(** C3. [add_file] leaves [repository.total_files] equal to the number of
    entries, whatever the index was before; so it is after each step of
    any sequence of [add_file], and in the index [create_index] returns,
    which it always does. *)
Theorem total_files_counts_entries :
  (forall idx fe, counted (add_file idx fe)) /\
  (forall idx l fe, counted (foldl add_file idx (l ++ [fe])%list)) /\
  (forall match_file sha256_hexdigest self w,
     exists idx,
       (Indexer.create_index match_file sha256_hexdigest self w).1
       = Returns idx /\ counted idx).
Proof.
  split; [exact counted_add_file|]. split.
  - intros idx l fe. rewrite foldl_app. simpl. apply counted_add_file.
  - intros match_file sha self w. unfold Indexer.create_index.
    destruct (scan_directory_returns match_file sha self
                (Indexer.print ("Indexing repository at: "
                                  ++ Indexer.str_path (Indexer.repo_path self)) w))
      as [found ->].
    simpl. eexists; split; [reflexivity|].
    destruct found as [|fe found _] using rev_ind.
    + reflexivity.
    + rewrite foldl_app. simpl. apply counted_add_file.
Qed.

(** ** Substring search *)

Lemma slice_to_nonneg {A} (limit : Z) (l : list A) :
  0 <= limit -> slice_to limit l = take (Z.to_nat limit) l.
Proof.
  intros H. unfold slice_to.
  destruct (Z.ltb_spec limit 0); [lia | reflexivity].
Qed.

Lemma slice_to_neg {A} (limit : Z) (l : list A) :
  limit < 0 -> slice_to limit l = take (length l - Z.to_nat (- limit)) l.
Proof.
  intros H. unfold slice_to, len.
  destruct (Z.ltb_spec limit 0); [|lia]. f_equal. lia.
Qed.

Lemma filter_ext_iff {A} (f g : A -> bool) (l : list A) :
  (forall x, f x = true <-> g x = true) -> List.filter f l = List.filter g l.
Proof.
  intros H. apply List.filter_ext. intros x. specialize (H x).
  destruct (f x), (g x); intuition congruence.
Qed.

Lemma filter_map_comm {A B} (f : B -> bool) (g : A -> B) (l : list A) :
  List.filter f (map g l) = map g (List.filter (fun x => f (g x)) l).
Proof.
  induction l as [|x l IH]; simpl; [reflexivity|].
  destruct (f (g x)); simpl; now rewrite IH.
Qed.

(** The test that [search_files] applies to an entry. *)
Lemma search_files_keeps (idx : WorkspaceIndex) (pattern : string)
    (case_sensitive : bool) :
  exists keep : FileEntry -> bool,
    (forall f, keep f = true <-> path_matches pattern case_sensitive f) /\
    search_files idx pattern case_sensitive = List.filter keep (files idx).
Proof.
  unfold search_files, path_matches. destruct case_sensitive; simpl.
  - exists (fun f => PyStr.contains pattern (path f)).
    split; [intros f; apply contains_spec | reflexivity].
  - exists (fun f => PyStr.contains (PyStr.lower pattern) (PyStr.lower (path f))).
    split; [intros f; apply contains_spec | reflexivity].
Qed.

(** C6, as stated, fails: with the limit -1 the slice drops the last match
    and returns the others, not the first -1 (none) of them. *)
Lemma substring_search_negative_limit :
  ~ substring_search_law sample_index "src" false (-1).
Proof.
  intros [keep [_ Heq]].
  change (Z.to_nat (-1)) with 0%nat in Heq. rewrite take_0 in Heq.
  vm_compute in Heq. discriminate.
Qed.

(** C6, amended.  For a limit that is not negative, the substring search
    returns exactly the entries whose path contains the pattern (both
    lower-cased first when the search is not case-sensitive), in the order
    of the index, cut to the first [limit] of them. *)
Theorem substring_search_nonneg_limit (idx : WorkspaceIndex)
    (pattern : string) (case_sensitive : bool) (limit : Z) :
  0 <= limit -> substring_search_law idx pattern case_sensitive limit.
Proof.
  intros Hlimit.
  destruct (search_files_keeps idx pattern case_sensitive) as [keep [Hk Heq]].
  exists keep. split; [exact Hk|].
  unfold Server.search_files_results.
  now rewrite slice_to_nonneg, Heq.
Qed.

Lemma substring_search_nonneg_limit_witness :
  0 <= 10 /\ substring_search_law sample_index "main" false 10.
Proof.
  split; [lia | apply (substring_search_nonneg_limit sample_index "main" false 10); lia].
Defined.

Lemma files_lower_paths (idx : WorkspaceIndex) :
  files (lower_paths idx) = map lower_entry (files idx).
Proof.
  unfold files, lower_paths; simpl. rewrite lookup_fmap.
  now destruct (index idx !! "files").
Qed.

(** C7. The case-insensitive search for [p] and the case-insensitive
    search for [p.lower()] in the index with all paths lower-cased return
    the same entries, up to the lower-casing of their paths and in the same
    order; and folding the pattern alone changes nothing. *)
Theorem case_folding_search (idx : WorkspaceIndex) (p : string) :
  search_files (lower_paths idx) (PyStr.lower p) false
  = map lower_entry (search_files idx p false)
  /\ search_files idx (PyStr.lower p) false = search_files idx p false.
Proof.
  unfold search_files; simpl. rewrite files_lower_paths, lower_idem. split.
  - rewrite filter_map_comm. f_equal. apply List.filter_ext.
    intros f. simpl. now rewrite lower_idem.
  - reflexivity.
Qed.

(** ** Search by type *)

Lemma value_inj (t u : FileType) : value t = value u -> t = u.
Proof. destruct t, u; intros H; (reflexivity || discriminate H). Qed.

Lemma lower_value (t : FileType) : PyStr.lower (value t) = value t.
Proof. now destruct t. Qed.

Lemma FileType_of_value_Some (s : string) (t : FileType) :
  FileType_of_value s = Some t <-> value t = s.
Proof.
  unfold FileType_of_value. split.
  - intros H. apply List.find_some in H as [_ H].
    now apply bool_decide_eq_true in H.
  - intros <-. now destruct t.
Qed.

Lemma FileType_of_value_None (s : string) :
  FileType_of_value s = None <-> forall t, value t <> s.
Proof.
  split.
  - intros H t Ht. apply FileType_of_value_Some in Ht. congruence.
  - intros H. destruct (FileType_of_value s) as [t|] eqn:E; [|reflexivity].
    apply FileType_of_value_Some in E. now apply H in E.
Qed.

Lemma append_empty_r (s : string) : s ++ "" = s.
Proof.
  induction s as [|c s IH]; [reflexivity|].
  change (String c s ++ "") with (String c (s ++ "")). now rewrite IH.
Qed.

Lemma contains_empty (s : string) : PyStr.contains "" s = true.
Proof. now destruct s. Qed.

Lemma filter_filter {A} (f g : A -> bool) (l : list A) :
  List.filter f (List.filter g l) = List.filter (fun x => g x && f x) l.
Proof.
  induction l as [|x l IH]; simpl; [reflexivity|].
  destruct (g x); simpl; [destruct (f x)|]; now rewrite IH.
Qed.

(** The test that [search_by_type] applies to an entry once the name is
    resolved to [t]. *)
Lemma search_by_type_keeps (idx : WorkspaceIndex) (file_type : string)
    (pattern : option string) (limit : Z) (t : FileType) :
  names_type file_type t ->
  exists keep : FileEntry -> bool,
    (forall f, keep f = true <-> type_matches t pattern f) /\
    Server.search_by_type_results idx file_type pattern limit
    = inr (slice_to limit (List.filter keep (files idx))).
Proof.
  unfold names_type. intros Hname.
  unfold Server.search_by_type_results.
  symmetry in Hname. apply FileType_of_value_Some in Hname as E. rewrite E.
  unfold get_files_by_type, type_matches.
  destruct pattern as [[|c p]|]; simpl.
  - exists (fun f => bool_decide (type f = t)). split; [|reflexivity].
    intros f. rewrite bool_decide_eq_true. split; [|tauto].
    intros H. split; [exact H|]. apply contains_spec, contains_empty.
  - exists (fun f => bool_decide (type f = t)
                     && PyStr.contains (PyStr.lower (String c p))
                          (PyStr.lower (path f))).
    split; [|now rewrite filter_filter].
    intros f. now rewrite andb_true_iff, bool_decide_eq_true, contains_spec.
  - exists (fun f => bool_decide (type f = t)). split; [|reflexivity].
    intros f. rewrite bool_decide_eq_true. tauto.
Qed.

Lemma search_by_type_unknown (idx : WorkspaceIndex) (file_type : string)
    (pattern : option string) (limit : Z) :
  (forall t, ~ names_type file_type t) ->
  Server.search_by_type_results idx file_type pattern limit
  = inl ("Invalid file type. Valid types are: "
           ++ PyStr.join ", " (map value FileType_members)).
Proof.
  intros H. unfold Server.search_by_type_results.
  replace (FileType_of_value (PyStr.lower file_type)) with (@None FileType);
    [reflexivity|].
  symmetry. apply FileType_of_value_None. intros t Ht. now apply (H t).
Qed.

Lemma valid_names_listed :
  NoDup (map value FileType_members)
  /\ forall n, n ∈ map value FileType_members <-> exists t, n = value t.
Proof.
  split.
  - unfold FileType_members. simpl.
    repeat (apply NoDup_cons; split;
            [rewrite ?elem_of_cons, elem_of_nil; intuition discriminate|]).
    apply NoDup_nil_2.
  - intros n. rewrite list_elem_of_fmap. split.
    + intros [t [-> _]]. now exists t.
    + intros [t ->]. exists t. split; [reflexivity|].
      destruct t; unfold FileType_members;
        repeat first [apply list_elem_of_here | apply list_elem_of_further].
Qed.

(** C5, as stated, fails: with the limit -1 the slice drops the last
    entry of the type and returns the others. *)
Lemma type_search_negative_limit :
  ~ type_search_law sample_index "python" None (-1).
Proof.
  intros [_ H]. destruct (H PYTHON eq_refl) as [keep [_ Heq]].
  change (Z.to_nat (-1)) with 0%nat in Heq. rewrite take_0 in Heq.
  vm_compute in Heq. discriminate.
Qed.

(** C5, amended.  A type name that names no type, whatever its
    capitalization, gets an error message that is a heading followed by
    the valid names, each of them once and no other, separated by a comma
    and a space; for a name of a type and a limit that is not negative the result is
    the entries of that type, further filtered by the case-insensitive
    substring when one is given, cut to the first [limit] of them. *)
Theorem type_search_nonneg_limit (idx : WorkspaceIndex) (file_type : string)
    (pattern : option string) (limit : Z) :
  0 <= limit -> type_search_law idx file_type pattern limit.
Proof.
  intros Hlimit. split.
  - intros Hno. eexists. exists (map value FileType_members).
    split; [now apply search_by_type_unknown|]. split; [|split; [|split]].
    + unfold Server.search_by_type.
      now rewrite (search_by_type_unknown idx file_type pattern limit Hno).
    + reflexivity.
    + apply valid_names_listed.
    + apply valid_names_listed.
  - intros t Ht.
    destruct (search_by_type_keeps idx file_type pattern limit t Ht)
      as [keep [Hk Heq]].
    exists keep. split; [exact Hk|]. now rewrite Heq, slice_to_nonneg.
Qed.

Lemma type_search_nonneg_limit_witness :
  0 <= 10 /\ type_search_law sample_index "cobol" None 10.
Proof.
  split; [lia | apply (type_search_nonneg_limit sample_index "cobol" None 10); lia].
Defined.

Lemma Forall_slice_to {A} (P : A -> Prop) (limit : Z) (l : list A) :
  Forall P l -> Forall P (slice_to limit l).
Proof. intros H. unfold slice_to. destruct (limit <? 0); now apply Forall_take. Qed.

(** C10. The type name is lower-cased before it is looked up: a string
    whose lower-casing is the value of a type gives the same result as
    that value itself, a list of entries that all have this type; and the
    error for an unknown type is returned exactly for the strings whose
    lower-casing is the value of no type. *)
Theorem type_name_case_insensitive (idx : WorkspaceIndex) (s : string)
    (pattern : option string) (limit : Z) :
  (forall t, names_type s t ->
     Server.search_by_type_results idx s pattern limit
     = Server.search_by_type_results idx (value t) pattern limit /\
     exists results,
       Server.search_by_type_results idx s pattern limit = inr results /\
       Forall (fun f => type f = t) results)
  /\ ((exists message,
         Server.search_by_type_results idx s pattern limit = inl message)
      <-> forall t, ~ names_type s t).
Proof.
  split.
  - intros t Ht. split.
    + unfold Server.search_by_type_results.
      rewrite lower_value. now rewrite Ht.
    + destruct (search_by_type_keeps idx s pattern limit t Ht)
        as [keep [Hk Heq]].
      eexists. split; [exact Heq|]. apply Forall_slice_to.
      apply Forall_forall. intros f Hf. apply list_elem_of_In in Hf.
      apply List.filter_In in Hf as [_ Hf]. now apply Hk in Hf as [Hf _].
  - split.
    + intros [message Hm] t Ht.
      destruct (search_by_type_keeps idx s pattern limit t Ht)
        as [keep [_ Heq]].
      congruence.
    + intros Hno. eexists. now apply search_by_type_unknown.
Qed.

(** ** Search by regular expression *)

(** C4, as stated, fails: with the limit -1 the slice drops the last
    match and returns the others. *)
Lemma regex_search_negative_limit :
  ~ regex_search_law sample_compile sample_search sample_index "py" true (-1).
Proof.
  unfold regex_search_law.
  change (sample_compile "py" 0)
    with (@Server.Compiles (string * bool) ("py", false)).
  cbv beta iota. intros Heq.
  change (Z.to_nat (-1)) with 0%nat in Heq. rewrite take_0 in Heq.
  vm_compute in Heq. discriminate.
Qed.

(** The handler of the tool is for [re.error] alone: on the sample
    engine the repeat count that the compiler cannot hold ends the call
    with [OverflowError]. *)
Example regex_overflow_escapes :
  Server.search_files_regex sample_compile sample_search sample_index
    "a{4294967296}" false 10 = Server.Escaped "OverflowError".
Proof. reflexivity. Qed.

(** C4, amended.  When the compiler raises [re.error], the tool returns
    a message that holds the compiler's diagnostic; when it raises an
    exception of another class, the exception is not caught and leaves the
    tool; when the pattern compiles and the limit is not negative, the
    result is the entries whose path the pattern matches somewhere, in the
    order of the index, cut to the first [limit] of them. *)
Theorem regex_search_nonneg_limit {Pattern : Type}
    (re_compile : string -> Z -> Server.compiled Pattern)
    (re_search : Pattern -> string -> bool)
    (idx : WorkspaceIndex) (pattern : string) (case_sensitive : bool)
    (limit : Z) :
  0 <= limit ->
  regex_search_law re_compile re_search idx pattern case_sensitive limit.
Proof.
  intros Hlimit. unfold regex_search_law, Server.search_files_regex,
    Server.search_files_regex_results.
  destruct (re_compile pattern _) as [regex | diagnostic | exception].
  - now rewrite slice_to_nonneg.
  - eexists. split; [reflexivity|]. split; [reflexivity|].
    exists "Invalid regex pattern: ", "". now rewrite append_empty_r.
  - reflexivity.
Qed.

Lemma regex_search_nonneg_limit_witness :
  0 <= 10 /\
  regex_search_law sample_compile sample_search sample_index "[invalid"
    false 10.
Proof.
  split; [lia|].
  apply (regex_search_nonneg_limit sample_compile sample_search sample_index
           "[invalid" false 10); lia.
Defined.

(** ** Ignored paths *)

Lemma load_gitignore_truthy (w : Indexer.world) (lines : list string) :
  Indexer.gitignore w = Some lines ->
  exists spec,
    Indexer.spec_truthy (Indexer._load_gitignore w) = Some spec.
Proof.
  intros H. unfold Indexer._load_gitignore. rewrite H. simpl.
  destruct (map PyStr.strip _); simpl; eauto.
Qed.

Lemma default_policy_spec (p : Path) :
  existsb (fun part => PyStr.startswith part ".") p
  || existsb (fun part => bool_decide (part ∈ Indexer.ignore_dirs)) p = true
  <-> hidden_or_denied p.
Proof.
  unfold hidden_or_denied.
  rewrite orb_true_iff, !existsb_exists. split.
  - intros [[part [Hin H]] | [part [Hin H]]]; exists part;
      (split; [now apply list_elem_of_In|]).
    + now left.
    + right. now apply bool_decide_eq_true in H.
  - intros [part [Hin [H | H]]]; [left | right]; exists part;
      (split; [now apply list_elem_of_In|]).
    + exact H.
    + now apply bool_decide_eq_true.
Qed.

(** C2, as stated, fails: without a [.gitignore] the indexer does not
    compare the path with the repository root, and a path outside it with
    no hidden or listed component is not ignored. *)
Lemma outside_path_not_ignored :
  ~ outside_is_ignored (fun _ _ => true)
      (Indexer.init ["/"; "repo"] bare_world) ["/"; "tmp"; "notes.txt"].
Proof.
  unfold outside_is_ignored, outside. intros H.
  assert (Indexer._should_ignore (fun _ _ => true)
            (Indexer.init ["/"; "repo"] bare_world) ["/"; "tmp"; "notes.txt"]
          = Returns true) as Heq.
  { apply H. simpl. intros [k Hk]. discriminate Hk. }
  vm_compute in Heq. discriminate Heq.
Qed.

(** Without a [.gitignore] the default policy alone decides, inside the
    repository and outside: the answer is true exactly when a component
    of the path starts with a dot or is one of the listed directories. *)
Lemma should_ignore_default_policy
    (match_file : Indexer.PathSpec -> string -> bool)
    (repo : Path) (w : Indexer.world) (p : Path) :
  Indexer.gitignore w = None ->
  exists b,
    Indexer._should_ignore match_file (Indexer.init repo w) p = Returns b
    /\ (b = true <-> hidden_or_denied p).
Proof.
  intros Hno. unfold Indexer._should_ignore. simpl.
  unfold Indexer._load_gitignore. rewrite Hno. simpl.
  pose proof (default_policy_spec p) as Hp.
  destruct (existsb (fun part => PyStr.startswith part ".") p);
    [|destruct (existsb _ p)]; simpl in Hp; eexists; (split; [reflexivity|]);
    [exact Hp | exact Hp |].
  rewrite <- Hp. split; discriminate.
Qed.

(** C2, amended.  For a path outside the repository root
    [_should_ignore] answers true when the repository has a
    [.gitignore]; and with or without one it returns an answer: no
    exception leaves it. *)
Theorem outside_path_ignored_with_gitignore
    (match_file : Indexer.PathSpec -> string -> bool)
    (repo : Path) (w : Indexer.world) (p : Path) :
  outside (Indexer.init repo w) p ->
  (is_Some (Indexer.gitignore w) ->
   Indexer._should_ignore match_file (Indexer.init repo w) p = Returns true)
  /\ (exists b,
        Indexer._should_ignore match_file (Indexer.init repo w) p = Returns b).
Proof.
  unfold outside. simpl. intros Hout. split.
  - intros [lines Hl]. unfold Indexer._should_ignore. simpl.
    destruct (load_gitignore_truthy w lines Hl) as [spec ->].
    unfold Indexer.relative_to. now rewrite bool_decide_eq_false_2.
  - apply should_ignore_returns.
Qed.

Lemma outside_path_ignored_with_gitignore_witness :
  outside (Indexer.init ["/"; "repo"]
             (Indexer.mkWorld (Some ["*.log"]) (Some []) None 0 []))
    ["/"; "tmp"; "notes.txt"]
  /\ Indexer._should_ignore (fun _ _ => false)
       (Indexer.init ["/"; "repo"]
          (Indexer.mkWorld (Some ["*.log"]) (Some []) None 0 []))
       ["/"; "tmp"; "notes.txt"] = Returns true.
Proof.
  assert (outside (Indexer.init ["/"; "repo"]
                     (Indexer.mkWorld (Some ["*.log"]) (Some []) None 0 []))
            ["/"; "tmp"; "notes.txt"]) as Hout.
  { unfold outside. simpl. intros [k Hk]. discriminate Hk. }
  split; [exact Hout|].
  apply (outside_path_ignored_with_gitignore (fun _ _ => false) ["/"; "repo"]
           (Indexer.mkWorld (Some ["*.log"]) (Some []) None 0 [])
           ["/"; "tmp"; "notes.txt"] Hout).
  simpl. eauto.
Defined.

(** ** Loading the persisted index *)

Section Persistence.
Variable fromisoformat : string -> option datetime.
Variable validate : list (string * pyval) -> option WorkspaceIndex.
Variable describe : exn -> string.

Lemma load_index_of_body (self : Indexer.FileIndexer) (w : Indexer.world)
    (text : yaml_text) :
  Indexer.index_file w = Some text ->
  Indexer.load_index fromisoformat validate describe self w
  = match Indexer.load_body fromisoformat validate text with
    | Returns index => (Returns (Some index), w)
    | Raises e =>
        (Returns None,
         Indexer.print ("Error loading index: " ++ describe e) w)
    end.
Proof.
  intros H. unfold Indexer.load_index. rewrite H.
  destruct (Indexer.load_body _ _ _) as [index | e]; [reflexivity|].
  now destruct e.
Qed.

(** What is read back from the file that [save_index] wrote never gets
    through the [try] of [load_index]: the safe loader rejects the
    Python tag under which a member of [FileType] was written, and a
    document without any holds [last_updated] as a timestamp, which
    [datetime.fromisoformat] refuses. *)
Lemma load_body_of_dump_raises (idx : WorkspaceIndex) :
  exists e,
    Indexer.load_body fromisoformat validate
      (Yaml.dump (Indexer.model_dump idx)) = Raises e.
Proof.
  unfold Indexer.load_body, Yaml.dump, Yaml.safe_load, Indexer.model_dump.
  cbn [Yaml.represent map fst snd].
  cbn [Yaml.construct bind Yaml.construct_scalar Yaml.hashable].
  match goal with
  | |- context [bind (?f ?l []) (fun d => Returns (PDict d))] =>
      destruct (f l []) as [d1 | e1]
  end; cbn [bind]; [|eexists; reflexivity].
  match goal with
  | |- context [bind (?f ?l []) (fun d => Returns (PDict d))] =>
      destruct (f l []) as [d2 | e2]
  end; cbn [bind]; [|eexists; reflexivity].
  vm_compute. eexists; reflexivity.
Qed.
End Persistence.

(** C9. [load_index] returns [None], and leaves the world as it is, when
    the file does not exist; when reading the file back fails, in the YAML
    loader or at any later step of the [try], it prints the error and
    returns [None]; in no case does an exception leave it. *)
Theorem load_index_absent_on_failure
    (fromisoformat : string -> option datetime)
    (validate : list (string * pyval) -> option WorkspaceIndex)
    (describe : exn -> string)
    (self : Indexer.FileIndexer) (w : Indexer.world) :
  (Indexer.index_file w = None ->
   Indexer.load_index fromisoformat validate describe self w
   = (Returns None, w))
  /\ (forall text e,
        Indexer.index_file w = Some text ->
        Yaml.safe_load text = Raises e ->
        Indexer.load_index fromisoformat validate describe self w
        = (Returns None,
           Indexer.print ("Error loading index: " ++ describe e) w))
  /\ (forall text e,
        Indexer.index_file w = Some text ->
        Indexer.load_body fromisoformat validate text = Raises e ->
        Indexer.load_index fromisoformat validate describe self w
        = (Returns None,
           Indexer.print ("Error loading index: " ++ describe e) w))
  /\ (exists r w',
        Indexer.load_index fromisoformat validate describe self w
        = (Returns r, w')).
Proof.
  repeat split.
  - intros H. unfold Indexer.load_index. now rewrite H.
  - intros text e Hf He.
    rewrite (load_index_of_body _ _ _ self w text Hf).
    unfold Indexer.load_body. now rewrite He.
  - intros text e Hf He.
    rewrite (load_index_of_body _ _ _ self w text Hf). now rewrite He.
  - destruct (Indexer.index_file w) as [text|] eqn:Hf.
    + rewrite (load_index_of_body _ _ _ self w text Hf).
      destruct (Indexer.load_body _ _ _); eauto.
    + unfold Indexer.load_index. rewrite Hf. eauto.
Qed.

(** C1 fails on the code: whatever index is saved, [load_index] on the
    world that [save_index] leaves prints an error and returns [None], so
    nothing is read back to compare with what was saved. *)
Theorem load_after_save_is_absent
    (fromisoformat : string -> option datetime)
    (validate : list (string * pyval) -> option WorkspaceIndex)
    (describe : exn -> string)
    (self : Indexer.FileIndexer) (idx : WorkspaceIndex) (w : Indexer.world) :
  exists e,
    Indexer.load_index fromisoformat validate describe self
      (Indexer.save_index self idx w)
    = (Returns None,
       Indexer.print ("Error loading index: " ++ describe e)
         (Indexer.save_index self idx w)).
Proof.
  destruct (load_body_of_dump_raises fromisoformat validate idx) as [e He].
  exists e.
  rewrite (load_index_of_body _ _ _ self _ (Yaml.dump (Indexer.model_dump idx)));
    [now rewrite He | reflexivity].
Qed.

(** The same on the index that [create_index] builds for an empty
    repository: the exception is the safe loader's, at the first key of
    [file_types]. *)
Lemma load_after_save_empty_repository
    (match_file : Indexer.PathSpec -> string -> bool)
    (sha256_hexdigest : string -> string)
    (fromisoformat : string -> option datetime)
    (validate : list (string * pyval) -> option WorkspaceIndex)
    (describe : exn -> string) :
  let self := Indexer.init ["/"; "repo"] bare_world in
  exists idx w,
    Indexer.create_index match_file sha256_hexdigest self bare_world
    = (Returns idx, w) /\
    Indexer.load_index fromisoformat validate describe self
      (Indexer.save_index self idx w)
    = (Returns None,
       Indexer.print ("Error loading index: " ++ describe ConstructorError)
         (Indexer.save_index self idx w)).
Proof.
  intros self. eexists. eexists. split; [reflexivity|].
  vm_compute. reflexivity.
Qed.

(** * Further properties *)

(** ** The enumeration of file types *)

(** X1. Looking a member up by its value gives the member back, two
    members never share a value, and every value is already in lower
    case. *)
Theorem FileType_value_round_trip (t : FileType) :
  FileType_of_value (value t) = Some t
  /\ (forall u, value u = value t -> u = t)
  /\ PyStr.lower (value t) = value t
  /\ t ∈ FileType_members.
Proof.
  split; [now apply FileType_of_value_Some|].
  split; [intros u; apply value_inj|].
  split; [apply lower_value|].
  destruct t; unfold FileType_members; set_solver.
Qed.

(** ** Searching and adding *)

Lemma isascii_app (a b : string) :
  PyStr.isascii (a ++ b) = PyStr.isascii a && PyStr.isascii b.
Proof.
  induction a as [|c a IH]; [reflexivity|].
  change (String c a ++ b) with (String c (a ++ b)). simpl.
  now rewrite IH, andb_assoc.
Qed.

(** On ASCII strings [str.lower] works character by character, so it
    goes through a concatenation. *)
Lemma lower_app (a b : string) :
  ascii_only a -> ascii_only b ->
  PyStr.lower (a ++ b) = PyStr.lower a ++ PyStr.lower b.
Proof.
  intros _ _. induction a as [|c a IH]; [reflexivity|].
  change (String c a ++ b) with (String c (a ++ b)). simpl. now rewrite IH.
Qed.

Lemma is_substring_lower (p s : string) :
  ascii_only s ->
  is_substring p s -> is_substring (PyStr.lower p) (PyStr.lower s).
Proof.
  intros Hs [a [b ->]]. unfold ascii_only in Hs.
  rewrite !isascii_app in Hs.
  apply andb_true_iff in Hs as [Ha Hs]. apply andb_true_iff in Hs as [Hp Hb].
  exists (PyStr.lower a), (PyStr.lower b).
  rewrite !lower_app; try assumption; [reflexivity|].
  unfold ascii_only. now rewrite isascii_app, Hp, Hb.
Qed.

Lemma filter_sublist_impl {A} (f g : A -> bool) (l : list A) :
  Forall (fun x => f x = true -> g x = true) l ->
  List.filter f l `sublist_of` List.filter g l.
Proof.
  induction 1 as [|x l H _ IH]; simpl; [constructor|].
  destruct (f x) eqn:Ef.
  - rewrite (H eq_refl). now constructor.
  - destruct (g x); [now constructor | exact IH].
Qed.

(** X2. In an index whose paths are ASCII strings, what the
    case-sensitive search finds, the case-insensitive search for the same
    pattern finds too, in the same order.  (Beyond ASCII [str.lower] looks
    at the neighbours of a character, and a pattern found in a path need
    not be found once both are lower-cased.) *)
Theorem case_sensitive_search_is_narrower (idx : WorkspaceIndex)
    (pattern : string) :
  Forall (fun f => ascii_only (path f)) (files idx) ->
  search_files idx pattern true `sublist_of` search_files idx pattern false.
Proof.
  intros Hascii. unfold search_files. simpl. apply filter_sublist_impl.
  eapply Forall_impl; [exact Hascii|].
  intros f Hf. simpl in Hf. rewrite !contains_spec.
  now apply is_substring_lower.
Qed.

Lemma case_sensitive_search_is_narrower_witness :
  search_files sample_index "App" true
    `sublist_of` search_files sample_index "App" false.
Proof.
  apply (case_sensitive_search_is_narrower sample_index "App").
  vm_compute. repeat constructor.
Defined.

(** X3. The empty pattern matches every path: the search returns the
    whole index, whatever the case sensitivity. *)
Theorem empty_pattern_finds_all (idx : WorkspaceIndex)
    (case_sensitive : bool) :
  search_files idx "" case_sensitive = files idx.
Proof.
  unfold search_files. destruct case_sensitive; simpl;
    (rewrite (List.filter_ext _ (fun _ => true));
     [|intros f; apply contains_empty]);
    induction (files idx) as [|x l IH]; simpl; congruence.
Qed.

(** X4. Adding an entry and searching: the entry is appended to the
    answer when its path matches, and the answer is unchanged when it does
    not; the entries found before keep their places. *)
Theorem search_after_add_file (idx : WorkspaceIndex) (fe : FileEntry)
    (pattern : string) (case_sensitive : bool) :
  (path_matches pattern case_sensitive fe ->
   search_files (add_file idx fe) pattern case_sensitive
   = (search_files idx pattern case_sensitive ++ [fe])%list)
  /\ (~ path_matches pattern case_sensitive fe ->
      search_files (add_file idx fe) pattern case_sensitive
      = search_files idx pattern case_sensitive).
Proof.
  destruct (search_files_keeps idx pattern case_sensitive) as [keep [Hk Heq]].
  assert (search_files (add_file idx fe) pattern case_sensitive
          = List.filter keep (files idx ++ [fe])%list) as Hadd.
  { destruct (search_files_keeps (add_file idx fe) pattern case_sensitive)
      as [keep' [Hk' Heq']].
    rewrite Heq', files_add_file. apply filter_ext_iff.
    intros f. now rewrite Hk, Hk'. }
  rewrite Hadd, List.filter_app, <- Heq. simpl.
  split; intros H.
  - apply Hk in H. now rewrite H.
  - destruct (keep fe) eqn:E; [now apply Hk in E|]. now rewrite app_nil_r.
Qed.

(** X5. Adding an entry and filtering by type: the entry is appended to
    the entries of its own type and changes those of no other type. *)
Theorem get_files_by_type_after_add_file (idx : WorkspaceIndex)
    (fe : FileEntry) (t : FileType) :
  get_files_by_type (add_file idx fe) t
  = (get_files_by_type idx t
       ++ (if bool_decide (type fe = t) then [fe] else []))%list.
Proof.
  unfold get_files_by_type. rewrite files_add_file, List.filter_app.
  simpl. now destruct (bool_decide (type fe = t)).
Qed.

(** ** Limits *)

Lemma slice_to_prefix {A} (limit : Z) (l : list A) :
  slice_to limit l `prefix_of` l.
Proof. unfold slice_to. destruct (limit <? 0); apply prefix_take. Qed.

Lemma len_slice_to {A} (limit : Z) (l : list A) :
  len (slice_to limit l)
  = if limit <? 0 then Z.max 0 (len l + limit) else Z.min limit (len l).
Proof.
  unfold slice_to, len. destruct (Z.ltb_spec limit 0);
    rewrite length_take; lia.
Qed.

(** X6. Whatever the limit, negative or not, the substring search and
    the search by type return a prefix of the untruncated list of matches,
    so no entry is made up or reordered; its length is [min limit n] for a
    limit that is not negative and [max 0 (n + limit)] for a negative one,
    where [n] is the number of matches. *)
Theorem results_are_a_prefix (idx : WorkspaceIndex) (query : string)
    (case_sensitive : bool) (limit : Z) :
  let matches := search_files idx query case_sensitive in
  Server.search_files_results idx query case_sensitive limit
    `prefix_of` matches
  /\ len (Server.search_files_results idx query case_sensitive limit)
     = (if limit <? 0 then Z.max 0 (len matches + limit)
        else Z.min limit (len matches))
  /\ (forall t pattern,
        exists matches',
          Server.search_by_type_results idx (value t) pattern
            (len (files idx)) = inr matches' /\
          exists results,
            Server.search_by_type_results idx (value t) pattern limit
            = inr results /\
            results `prefix_of` matches' /\
            len results
            = (if limit <? 0 then Z.max 0 (len matches' + limit)
               else Z.min limit (len matches'))).
Proof.
  intros matches. split; [apply slice_to_prefix|].
  split; [apply len_slice_to|].
  intros t pattern. unfold Server.search_by_type_results.
  rewrite lower_value.
  replace (FileType_of_value (value t)) with (Some t)
    by (symmetry; now apply FileType_of_value_Some).
  set (l := if Server.truthy pattern then _ else _).
  assert (len l <= len (files idx)) as Hle.
  { subst l. unfold get_files_by_type, len.
    destruct (Server.truthy pattern).
    - etransitivity; [apply inj_le, List.filter_length_le|].
      apply inj_le, List.filter_length_le.
    - apply inj_le, List.filter_length_le. }
  exists l. split.
  - f_equal. rewrite slice_to_nonneg by (unfold len; lia).
    apply take_ge. unfold len in *. lia.
  - exists (slice_to limit l). split; [reflexivity|].
    split; [apply slice_to_prefix | apply len_slice_to].
Qed.

(** X7. With the limit 0 every search tool answers that nothing was
    found, whether or not some path matches. *)
Theorem limit_zero_finds_nothing (idx : WorkspaceIndex) :
  (forall query case_sensitive,
     Server.search_files idx query case_sensitive 0
     = "No files found matching the pattern.")
  /\ (forall t pattern,
        Server.search_by_type idx (value t) pattern 0
        = "No " ++ value t ++ " files found.")
  /\ (forall (Pattern : Type)
        (re_compile : string -> Z -> Server.compiled Pattern)
        (re_search : Pattern -> string -> bool) (pattern : string)
        (case_sensitive : bool),
        (exists regex,
           re_compile pattern
             (if case_sensitive then 0 else Server.IGNORECASE)
           = Server.Compiles regex) ->
        Server.search_files_regex re_compile re_search idx pattern
          case_sensitive 0
        = Server.Returned "No files found matching the regex pattern.").
Proof.
  split; [|split].
  - intros. unfold Server.search_files, Server.search_files_results.
    rewrite slice_to_nonneg by lia. reflexivity.
  - intros. unfold Server.search_by_type, Server.search_by_type_results.
    rewrite lower_value.
    replace (FileType_of_value (value t)) with (Some t)
      by (symmetry; now apply FileType_of_value_Some).
    rewrite slice_to_nonneg by lia. reflexivity.
  - intros Pattern re_compile re_search pattern case_sensitive [regex H].
    unfold Server.search_files_regex, Server.search_files_regex_results.
    rewrite H. rewrite slice_to_nonneg by lia. reflexivity.
Qed.

(** ** Statistics *)

Lemma counts_get_set (t u : FileType) (n : Z) (c : list (FileType * Z)) :
  Server.counts_get u (Server.counts_set t n c)
  = if bool_decide (t = u) then n else Server.counts_get u c.
Proof.
  induction c as [|[t' n'] c IH]; simpl.
  - reflexivity.
  - destruct (decide (t' = t)) as [->|Hne].
    + rewrite bool_decide_eq_true_2 by reflexivity. simpl.
      now destruct (bool_decide (t = u)).
    + rewrite (bool_decide_eq_false_2 (t' = t)) by assumption. simpl.
      rewrite IH. destruct (decide (t' = u)) as [->|Hne'].
      * rewrite bool_decide_eq_true_2 by reflexivity.
        now rewrite (bool_decide_eq_false_2 (t = u)) by congruence.
      * now rewrite (bool_decide_eq_false_2 (t' = u)) by assumption.
Qed.

Lemma counts_set_keys (t : FileType) (n : Z) (c : list (FileType * Z)) :
  NoDup c.*1 ->
  NoDup (Server.counts_set t n c).*1
  /\ forall u, u ∈ (Server.counts_set t n c).*1 <-> u = t \/ u ∈ c.*1.
Proof.
  induction c as [|[t' n'] c IH]; simpl; intros Hnd.
  - split; [apply NoDup_singleton|]. intros u.
    rewrite list_elem_of_singleton. split; [tauto|].
    intros [H|H]; [exact H | inversion H].
  - apply NoDup_cons in Hnd as [Hnotin Hnd].
    destruct (decide (t' = t)) as [->|Hne].
    + rewrite bool_decide_eq_true_2 by reflexivity. simpl.
      split; [now apply NoDup_cons|]. intros u.
      rewrite elem_of_cons. tauto.
    + rewrite (bool_decide_eq_false_2 (t' = t)) by assumption. simpl.
      destruct (IH Hnd) as [IH1 IH2]. split.
      * apply NoDup_cons. split; [|exact IH1].
        rewrite IH2. intros [->|H]; [congruence | contradiction].
      * intros u. rewrite !elem_of_cons, IH2. tauto.
Qed.

(** The sum of the counts of a dictionary. *)
Lemma sum_counts_set (t : FileType) (n : Z) (c : list (FileType * Z)) :
  foldr (fun kv acc => kv.2 + acc) 0 (Server.counts_set t n c)
  = foldr (fun kv acc => kv.2 + acc) 0 c + n - Server.counts_get t c.
Proof.
  induction c as [|[t' n'] c IH]; simpl; [lia|].
  destruct (bool_decide (t' = t)); simpl; [lia|]. rewrite IH. lia.
Qed.

Lemma count_of_type_cons (t : FileType) (f : FileEntry) (l : list FileEntry) :
  count_of_type t (f :: l)
  = (if bool_decide (type f = t) then 1 else 0) + count_of_type t l.
Proof.
  unfold count_of_type, len. simpl.
  destruct (bool_decide (type f = t)); simpl; lia.
Qed.

Lemma tally_spec (l : list FileEntry) (c : list (FileType * Z)) (s : Z) :
  NoDup c.*1 ->
  NoDup (Server.tally l c s).1.*1
  /\ (forall t, Server.counts_get t (Server.tally l c s).1
                = Server.counts_get t c + count_of_type t l)
  /\ (forall t, t ∈ (Server.tally l c s).1.*1
                <-> t ∈ c.*1 \/ exists f, f ∈ l /\ type f = t)
  /\ foldr (fun kv acc => kv.2 + acc) 0 (Server.tally l c s).1
     = foldr (fun kv acc => kv.2 + acc) 0 c + len l
  /\ (Server.tally l c s).2 = s + sum_of_sizes l.
Proof.
  revert c s. induction l as [|f l IH]; intros c s Hnd.
  - simpl. split; [exact Hnd|].
    split; [intros t; unfold count_of_type, len; simpl; lia|].
    split; [|split; [unfold len; simpl; lia | unfold sum_of_sizes; simpl; lia]].
    intros t. split; [tauto|]. intros [H|[f [Hf _]]]; [exact H | inversion Hf].
  - cbn [Server.tally].
    set (c' := Server.counts_set (type f) (Server.counts_get (type f) c + 1) c).
    destruct (counts_set_keys (type f) (Server.counts_get (type f) c + 1) c Hnd)
      as [Hnd' Hkeys].
    fold c' in Hnd', Hkeys.
    destruct (IH c' (s + size f) Hnd') as (I1 & I2 & I3 & I4 & I5).
    split; [exact I1|]. split; [|split; [|split]].
    + intros t. rewrite I2, count_of_type_cons. subst c'.
      rewrite counts_get_set. case_bool_decide as E; [subst t|]; lia.
    + intros t. rewrite I3, Hkeys. split.
      * intros [[->|H]|[f' [Hf' Ht]]].
        -- right. exists f. split; [apply elem_of_cons; now left | reflexivity].
        -- now left.
        -- right. exists f'. split; [apply elem_of_cons; now right | exact Ht].
      * intros [H|[f' [Hf' Ht]]]; [left; now right|].
        apply elem_of_cons in Hf' as [->|Hf'].
        -- left. left. now symmetry.
        -- right. now exists f'.
    + rewrite I4. subst c'. rewrite sum_counts_set. unfold len. simpl length. lia.
    + rewrite I5. unfold sum_of_sizes. simpl. lia.
Qed.

(** X8. The statistics of an index: the dictionary of counts has one key
    for each type that occurs in the index and none for a type that does
    not; the count of a type is the number of entries
    [get_files_by_type] returns for it; the counts add up to the number of
    entries and the total size is the sum of the sizes.  The reported
    [total_files] is the stored field, which agrees with the counts when
    the index is counted. *)
Theorem stats_count_the_index (idx : WorkspaceIndex) (index_path : string) :
  let st := Server.get_stats idx index_path in
  NoDup (Server.stats_file_types st).*1
  /\ (forall t, t ∈ (Server.stats_file_types st).*1
                <-> exists f, f ∈ files idx /\ type f = t)
  /\ (forall t, Server.counts_get t (Server.stats_file_types st)
                = len (get_files_by_type idx t))
  /\ foldr (fun kv acc => kv.2 + acc) 0 (Server.stats_file_types st)
     = len (files idx)
  /\ Server.stats_total_size st = sum_of_sizes (files idx)
  /\ (counted idx ->
      Server.stats_total_files st
      = foldr (fun kv acc => kv.2 + acc) 0 (Server.stats_file_types st)).
Proof.
  intros st. subst st. unfold Server.get_stats.
  destruct (tally_spec (files idx) [] 0 (NoDup_nil_2 : NoDup ([] : list (FileType * Z)).*1))
    as (T1 & T2 & T3 & T4 & T5).
  destruct (Server.tally (files idx) [] 0) as [type_counts total_size].
  simpl in *. split; [exact T1|]. split; [|split; [|split; [|split]]].
  - intros t. rewrite T3. split; [|tauto].
    intros [H|H]; [inversion H | exact H].
  - intros t. rewrite T2. reflexivity.
  - rewrite T4. lia.
  - rewrite T5. lia.
  - intros Hc. rewrite T4. unfold counted in Hc. rewrite Hc. lia.
Qed.

(** ** Suffixes and classification *)

Lemma append_cons (c : ascii) (a b : string) :
  String c a ++ b = String c (a ++ b).
Proof. reflexivity. Qed.

Lemma length_append (a b : string) :
  String.length (a ++ b) = (String.length a + String.length b)%nat.
Proof.
  induction a as [|c a IH]; [reflexivity|].
  rewrite append_cons. simpl. now rewrite IH.
Qed.

Lemma length_lower (s : string) :
  String.length (PyStr.lower s) = String.length s.
Proof. induction s as [|c s IH]; simpl; congruence. Qed.

Lemma drop_append (a b : string) : PyStr.drop (String.length a) (a ++ b) = b.
Proof.
  induction a as [|c a IH]; [now destruct b|].
  rewrite append_cons. simpl. exact IH.
Qed.

Lemma drop_add (a e : string) (i : nat) :
  PyStr.drop (String.length a + i) (a ++ e) = PyStr.drop i e.
Proof.
  induction a as [|c a IH]; [reflexivity|].
  rewrite append_cons. simpl. exact IH.
Qed.

Lemma lower_drop (i : nat) (s : string) :
  PyStr.lower (PyStr.drop i s) = PyStr.drop i (PyStr.lower s).
Proof.
  revert s. induction i as [|i IH]; intros s; [now destruct s|].
  destruct s as [|c s]; [reflexivity|]. simpl. apply IH.
Qed.

Lemma lower_ascii_dot (c : ascii) :
  Ascii.eqb (PyStr.lower_ascii c) "." = Ascii.eqb c ".".
Proof. destruct c as [[] [] [] [] [] [] [] []]; reflexivity. Qed.

Lemma rfind_lower (s : string) :
  PyStr.rfind "." (PyStr.lower s) = PyStr.rfind "." s.
Proof.
  induction s as [|c s IH]; [reflexivity|]. simpl.
  now rewrite IH, lower_ascii_dot.
Qed.

Lemma rfind_append (a e : string) (i : nat) :
  PyStr.rfind "." e = Some i ->
  PyStr.rfind "." (a ++ e) = Some (String.length a + i)%nat.
Proof.
  intros H. induction a as [|c a IH]; [exact H|].
  rewrite append_cons. simpl. now rewrite IH.
Qed.

Lemma rfind_split (s : string) (i : nat) :
  PyStr.rfind "." s = Some i ->
  exists a b, s = a ++ String "." b /\ String.length a = i /\ dot_free b.
Proof.
  revert i. induction s as [|c s IH]; intros i; simpl; [discriminate|].
  destruct (PyStr.rfind "." s) as [j|] eqn:E.
  - intros [= <-]. destruct (IH j eq_refl) as (a & b & -> & Ha & Hb).
    exists (String c a), b. rewrite append_cons. simpl. auto.
  - destruct (Ascii.eqb_spec c ".") as [->|Hne]; [|discriminate].
    intros [= <-]. exists "", s. auto.
Qed.

Lemma name_snoc (directory : Path) (n : string) :
  name (directory ++ [n])%list = n.
Proof. unfold name. apply last_last. Qed.

Lemma suffix_of_stem (directory : Path) (a e : string) (i : nat) :
  a <> "" ->
  PyStr.rfind "." e = Some i ->
  (i + 1 < String.length e)%nat ->
  suffix (directory ++ [(a ++ e)%string])%list = PyStr.drop i e.
Proof.
  intros Ha Hi Hlen. unfold suffix. rewrite name_snoc.
  rewrite (rfind_append a e i Hi), length_append.
  assert (0 < String.length a)%nat by (destruct a; [congruence | simpl; lia]).
  rewrite bool_decide_eq_true_2 by lia. apply drop_add.
Qed.

Lemma listed_extensions_checked :
  Forall
    (fun te : FileType * list string =>
       Forall
         (fun ext =>
            exists i,
              PyStr.rfind "." ext = Some i /\
              (i + 1 < String.length ext)%nat /\
              first_type_with (PyStr.drop i ext) FILE_TYPE_EXTENSIONS = te.1)
         te.2)
    FILE_TYPE_EXTENSIONS.
Proof.
  unfold FILE_TYPE_EXTENSIONS.
  repeat constructor;
    (eexists; split; [reflexivity|]; split; [simpl; lia | reflexivity]).
Qed.

(** X9. Every extension of the table classifies: a file whose name is a
    stem that is not empty followed by a listed extension, in any
    capitalization, gets the type that lists the extension.  (For
    [.d.ts] this is through the suffix [.ts].) *)
Theorem listed_extension_classifies (t : FileType) (exts : list string)
    (ext : string) (directory : Path) (stem e : string) :
  (t, exts) ∈ FILE_TYPE_EXTENSIONS ->
  ext ∈ exts ->
  stem <> "" ->
  PyStr.lower e = ext ->
  get_file_type (directory ++ [(stem ++ e)%string])%list = t.
Proof.
  intros Ht Hext Hstem Hlow.
  pose proof listed_extensions_checked as Hall.
  rewrite Forall_forall in Hall. specialize (Hall _ Ht). simpl in Hall.
  rewrite Forall_forall in Hall.
  destruct (Hall _ Hext) as (i & Hi & Hlen & Hfirst).
  subst ext. rewrite rfind_lower in Hi. rewrite length_lower in Hlen.
  unfold get_file_type.
  rewrite (suffix_of_stem directory stem e i Hstem Hi Hlen).
  now rewrite lower_drop.
Qed.

Lemma listed_extension_classifies_witness :
  get_file_type ["src"; "Main" ++ ".PY"] = PYTHON.
Proof.
  apply (listed_extension_classifies PYTHON [".py"; ".pyi"; ".pyx"; ".pxd"]
           ".py" ["src"] "Main" ".PY").
  - unfold FILE_TYPE_EXTENSIONS. apply list_elem_of_here.
  - apply list_elem_of_here.
  - discriminate.
  - reflexivity.
Defined.

(** X10. The suffix of a path is empty, or it is a dot followed by
    characters that are not dots, at least one, and the name is a stem
    that is not empty followed by the suffix.  So no path has the suffix
    [.d.ts]: that entry of the table never decides. *)
Theorem suffix_shape (p : Path) :
  (suffix p = ""
   \/ exists stem b,
        suffix p = String "." b /\ b <> "" /\ dot_free b /\
        stem <> "" /\ name p = stem ++ suffix p)
  /\ PyStr.lower (suffix p) <> ".d.ts".
Proof.
  assert (suffix p = ""
          \/ exists stem b,
               suffix p = String "." b /\ b <> "" /\ dot_free b /\
               stem <> "" /\ name p = stem ++ suffix p) as Hshape.
  { unfold suffix. destruct (PyStr.rfind "." (name p)) as [i|] eqn:E; [|now left].
    case_bool_decide as Hi; [|now left]. right.
    destruct (rfind_split _ _ E) as (a & b & Hn & Ha & Hb).
    rewrite Hn, length_append in Hi. simpl in Hi.
    exists a, b. rewrite Hn, <- Ha, drop_append.
    split; [reflexivity|]. split; [destruct b; [simpl in Hi; lia | discriminate]|].
    split; [exact Hb|]. split; [destruct a; [simpl in Ha; lia | discriminate]|].
    reflexivity. }
  split; [exact Hshape|].
  destruct Hshape as [-> | (stem & b & -> & _ & Hb & _)]; [discriminate|].
  intros H. simpl in H. injection H as H.
  unfold dot_free in Hb. rewrite <- rfind_lower, H in Hb. discriminate.
Qed.

Lemma first_type_with_empty : first_type_with "" FILE_TYPE_EXTENSIONS = OTHER.
Proof. reflexivity. Qed.

(** X11. Names the classifier does not recognize whatever their letters:
    a name without a dot, a name whose only dot is its first character
    (a hidden file such as [.py]), and a name that ends in a dot all get
    the type [other]. *)
Theorem unclassified_names (directory : Path) (n : string) :
  dot_free n
  \/ (exists b, n = String "." b /\ dot_free b)
  \/ (exists a, n = a ++ ".") ->
  get_file_type (directory ++ [n])%list = OTHER.
Proof.
  intros H.
  assert (suffix (directory ++ [n])%list = "") as Hs.
  { unfold dot_free, suffix in *. rewrite name_snoc.
    destruct H as [H | [(b & -> & Hb) | (a & ->)]].
    - now rewrite H.
    - simpl. now rewrite Hb.
    - rewrite (rfind_append a "." 0 eq_refl), length_append. simpl.
      now rewrite bool_decide_eq_false_2 by lia. }
  unfold get_file_type. now rewrite Hs.
Qed.

Lemma unclassified_names_witness :
  get_file_type ["home"; ".py"] = OTHER.
Proof.
  apply (unclassified_names ["home"] ".py").
  right. left. exists "py". split; reflexivity.
Defined.

(** ** The scan of the repository *)


Section ScanSpec.
Variable match_file : Indexer.PathSpec -> string -> bool.
Variable sha256_hexdigest : string -> string.
Variable self : Indexer.FileIndexer.








End ScanSpec.




Lemma scan_loop_nothing (step : Indexer.item -> outcome (list FileEntry))
    (entries : list Indexer.item) (files : list FileEntry) :
  (forall it, step it = Returns []) ->
  Indexer.scan_loop step entries files = (files, None).
Proof.
  intros H. revert files. induction entries as [|it entries IH]; intros files;
    simpl; [reflexivity|].
  now rewrite H, app_nil_r.
Qed.

Lemma hidden_or_denied_app (p q : Path) :
  hidden_or_denied p -> hidden_or_denied (p ++ q)%list.
Proof.
  intros [part [Hin H]]. exists part. split; [|exact H].
  apply elem_of_app. now left.
Qed.

(** X13. Without a [.gitignore] the default policy looks at every
    component of the absolute path.  So when a component of the
    repository path itself starts with a dot or is one of the listed
    directory names, every entry of the repository is ignored and
    [create_index] returns an index without files. *)
Theorem hidden_repository_indexes_nothing
    (match_file : Indexer.PathSpec -> string -> bool)
    (sha256_hexdigest : string -> string)
    (repo : Path) (w : Indexer.world) :
  Indexer.gitignore w = None ->
  hidden_or_denied repo ->
  exists idx w',
    Indexer.create_index match_file sha256_hexdigest (Indexer.init repo w) w
    = (Returns idx, w')
    /\ files idx = []
    /\ total_files (repository idx) = 0.
Proof.
  intros Hno Hhid. unfold Indexer.create_index.
  set (self := Indexer.init repo w).
  assert (forall it,
            Indexer.scan_item match_file sha256_hexdigest self repo it
            = Returns []) as Hstep.
  { intros it.
    destruct (should_ignore_default_policy match_file repo w
                (repo ++ [Indexer.item_name it])%list Hno) as [b [Hb Hiff]].
    assert (b = true) as -> by (apply Hiff; now apply hidden_or_denied_app).
    subst self.
    destruct it; cbn [Indexer.scan_item Indexer.item_name] in *;
      now rewrite Hb. }
  unfold Indexer._scan_directory. simpl.
  destruct (Indexer.listing w) as [entries|]; simpl.
  - rewrite (scan_loop_nothing _ entries [] Hstep). simpl.
    eexists. eexists. split; [reflexivity|]. split; reflexivity.
  - eexists. eexists. split; [reflexivity|]. split; reflexivity.
Qed.

Lemma hidden_repository_indexes_nothing_witness :
  exists idx w',
    Indexer.create_index (fun _ _ => false) (fun _ => "")
      (Indexer.init ["/"; "home"; ".cache"; "repo"]
         (Indexer.mkWorld None (Some sample_listing) None 0 []))
      (Indexer.mkWorld None (Some sample_listing) None 0 [])
    = (Returns idx, w')
    /\ files idx = []
    /\ total_files (repository idx) = 0.
Proof.
  apply (hidden_repository_indexes_nothing (fun _ _ => false) (fun _ => "")
           ["/"; "home"; ".cache"; "repo"]
           (Indexer.mkWorld None (Some sample_listing) None 0 [])).
  - reflexivity.
  - exists ".cache". split; [|left; reflexivity].
    apply list_elem_of_further, list_elem_of_further, list_elem_of_here.
Defined.

(** ** The ignore rules *)

Lemma rstrip_idem (s : string) : PyStr.rstrip (PyStr.rstrip s) = PyStr.rstrip s.
Proof.
  induction s as [|c s IH]; [reflexivity|]. simpl.
  destruct (PyStr.rstrip s) as [|d r] eqn:E.
  - destruct (PyStr.is_space c) eqn:Ec; [reflexivity|]. simpl. now rewrite Ec.
  - cbn [PyStr.rstrip]. cbn [PyStr.rstrip] in IH.
    destruct (PyStr.rstrip r); rewrite IH; reflexivity.
Qed.

Lemma strip_idem (s : string) : PyStr.strip (PyStr.strip s) = PyStr.strip s.
Proof.
  unfold PyStr.strip.
  assert (PyStr.lstrip s = "" \/
          exists c r, PyStr.lstrip s = String c r /\ PyStr.is_space c = false)
    as [-> | (c & r & -> & Hc)].
  { induction s as [|c s IH]; [now left|]. simpl.
    destruct (PyStr.is_space c) eqn:E; [exact IH | right; eauto]. }
  - reflexivity.
  - assert (exists r', PyStr.rstrip (String c r) = String c r') as [r' Hr].
    { simpl. destruct (PyStr.rstrip r); [rewrite Hc|]; eauto. }
    rewrite Hr. simpl PyStr.lstrip. rewrite Hc. rewrite <- Hr. apply rstrip_idem.
Qed.

(** X14. The patterns read from a [.gitignore]: the lines that are not
    blank and do not start with [#], each stripped of the white space
    around it, in the order of the file and as often as they occur,
    followed by [.git/] and [.claude/].  No pattern is empty or has white
    space around it, the list is never empty, and a comment that is
    indented is kept as a pattern. *)
Theorem gitignore_patterns (w : Indexer.world) (lines : list string) :
  Indexer.gitignore w = Some lines ->
  exists user,
    Indexer._load_gitignore w
    = Some (Indexer.mkPathSpec (user ++ [".git/"; ".claude/"])%list)
    /\ user
       = map PyStr.strip
           (List.filter
              (fun line =>
                 bool_decide (PyStr.strip line <> "")
                 && negb (PyStr.startswith line "#")) lines)
    /\ (forall p,
          p ∈ user <->
          exists line,
            line ∈ lines /\ p = PyStr.strip line /\ p <> "" /\
            PyStr.startswith line "#" = false)
    /\ (forall p, p ∈ user -> p <> "" /\ PyStr.strip p = p)
    /\ (forall comment,
          (" " ++ "#" ++ comment)%string ∈ lines ->
          PyStr.strip ("#" ++ comment) ∈ user).
Proof.
  intros H. unfold Indexer._load_gitignore. rewrite H.
  eexists. split; [reflexivity|].
  split.
  { f_equal. apply List.filter_ext. intros line. f_equal.
    destruct (PyStr.strip line) as [|c r].
    - now rewrite bool_decide_eq_false_2 by (intros Hn; now apply Hn).
    - now rewrite bool_decide_eq_true_2 by discriminate. }
  assert (forall p,
            p ∈ map PyStr.strip
                  (List.filter
                     (fun line =>
                        negb (Server.is_empty
                                (list_ascii_of_string (PyStr.strip line)))
                        && negb (PyStr.startswith line "#")) lines) <->
            exists line,
              line ∈ lines /\ p = PyStr.strip line /\ p <> "" /\
              PyStr.startswith line "#" = false) as Hmem.
  { intros p. rewrite list_elem_of_fmap. split.
    - intros (line & -> & Hin). apply list_elem_of_In, List.filter_In in Hin
        as [Hin Hk]. apply andb_true_iff in Hk as [Hk1 Hk2].
      exists line. split; [now apply list_elem_of_In|]. split; [reflexivity|].
      split; [|now apply negb_true_iff].
      intros E. rewrite E in Hk1. discriminate.
    - intros (line & Hin & -> & Hne & Hs). exists line. split; [reflexivity|].
      apply list_elem_of_In, List.filter_In. split; [now apply list_elem_of_In|].
      rewrite Hs. simpl. rewrite andb_true_r.
      destruct (PyStr.strip line); [congruence | reflexivity]. }
  split; [exact Hmem|]. split.
  - intros p Hp. apply Hmem in Hp as (line & _ & -> & Hne & _).
    split; [exact Hne | apply strip_idem].
  - intros comment Hin. apply Hmem. eexists. split; [exact Hin|].
    split; [reflexivity|]. split; [|reflexivity].
    change (PyStr.strip ("#" ++ comment))
      with (PyStr.rstrip (String "#" comment)).
    cbn [PyStr.rstrip].
    destruct (PyStr.rstrip comment); intros E; cbv in E; discriminate E.
Qed.

Lemma gitignore_patterns_witness :
  exists user,
    Indexer._load_gitignore
      (Indexer.mkWorld (Some ["*.log"; "# logs"; ""; " node_modules/ "])
         (Some []) None 0 [])
    = Some (Indexer.mkPathSpec (user ++ [".git/"; ".claude/"])%list)
    /\ user = ["*.log"; "node_modules/"].
Proof.
  destruct (gitignore_patterns
              (Indexer.mkWorld (Some ["*.log"; "# logs"; ""; " node_modules/ "])
                 (Some []) None 0 [])
              ["*.log"; "# logs"; ""; " node_modules/ "] eq_refl)
    as (user & Hload & _).
  exists user. split; [exact Hload|].
  vm_compute in Hload. injection Hload as Hload.
  apply (app_inv_tail [".git/"; ".claude/"]). symmetry. exact Hload.
Defined.

Lemma relative_to_inside (base rel : Path) :
  base <> [] ->
  Indexer.relative_to (base ++ rel)%list base = Returns rel.
Proof.
  intros Hne. unfold Indexer.relative_to.
  rewrite bool_decide_eq_true_2 by apply prefix_app_r, reflexivity.
  destruct base as [|a base]; [congruence|]. simpl.
  now rewrite drop_app_length.
Qed.

(** X15. With a [.gitignore], the decision for a path inside the
    repository, the path of the repository followed by further
    components, is the one [pathspec] takes on the path relative to the
    root, its components joined by a slash ([.] for the root itself); the
    components of the repository path play no part.  The repository path
    is not the empty path: [__init__] resolves it, or takes it from
    [_find_repo_root], which starts at the absolute [Path.cwd()]. *)
Theorem inside_path_decided_by_pathspec
    (match_file : Indexer.PathSpec -> string -> bool)
    (repo : Path) (w : Indexer.world) (rel : Path) :
  repo <> [] ->
  is_Some (Indexer.gitignore w) ->
  exists spec,
    Indexer._load_gitignore w = Some spec /\
    Indexer._should_ignore match_file (Indexer.init repo w) (repo ++ rel)%list
    = Returns (match_file spec
                 (match rel with
                  | [] => "."
                  | "/" :: rest => "/" ++ PyStr.join "/" rest
                  | _ => PyStr.join "/" rel
                  end)).
Proof.
  intros Hrepo [lines Hl].
  unfold Indexer._should_ignore, Indexer.init, Indexer._load_gitignore.
  rewrite Hl. eexists. split; [reflexivity|]. simpl.
  match goal with
  | |- context [Server.is_empty (?user ++ [".git/"; ".claude/"])%list] =>
      replace (Server.is_empty (user ++ [".git/"; ".claude/"])%list)
        with false by now destruct user
  end.
  now rewrite relative_to_inside.
Qed.

Lemma inside_path_decided_by_pathspec_witness :
  exists spec,
    Indexer._load_gitignore
      (Indexer.mkWorld (Some ["*.log"]) (Some []) None 0 []) = Some spec /\
    Indexer._should_ignore
      (fun _ s => PyStr.contains ".log" s)
      (Indexer.init ["/"; "repo"]
         (Indexer.mkWorld (Some ["*.log"]) (Some []) None 0 []))
      ["/"; "repo"; "var"; "test.log"]
    = Returns true.
Proof.
  apply (inside_path_decided_by_pathspec (fun _ s => PyStr.contains ".log" s)
           ["/"; "repo"] (Indexer.mkWorld (Some ["*.log"]) (Some []) None 0 [])
           ["var"; "test.log"]).
  - discriminate.
  - simpl. eauto.
Defined.

(** ** The repository root *)

Lemma parent_snoc (l : Path) (x : string) :
  (l = [] /\ x = "/" /\ Indexer.parent (l ++ [x])%list = (l ++ [x])%list)
  \/ Indexer.parent (l ++ [x])%list = l.
Proof.
  destruct l as [|a l]; simpl.
  - case_bool_decide; [left; auto | right; reflexivity].
  - right. destruct l as [|b l]; [reflexivity|].
    change (a :: b :: l ++ [x])%list with ((a :: b :: l) ++ [x])%list.
    rewrite removelast_last. reflexivity.
Qed.

Lemma prefix_snoc_inv (q l : Path) (x : string) :
  q `prefix_of` (l ++ [x])%list -> q = (l ++ [x])%list \/ q `prefix_of` l.
Proof.
  intros [k Hk]. destruct k as [|y k _] using rev_ind.
  - left. now rewrite app_nil_r in Hk.
  - right. rewrite app_assoc in Hk. apply app_inj_tail in Hk as [-> _].
    now exists k.
Qed.

Lemma find_repo_root_loop_spec (path_exists : Path -> bool) (current : Path) :
  forall fuel,
    (length current < fuel)%nat ->
    exists res,
      Indexer.find_repo_root_loop path_exists fuel current = Some res /\
      match res with
      | Some r =>
          path_exists (r ++ [".git"])%list = true /\
          r `prefix_of` current /\
          r <> Indexer.parent r /\
          forall q, r `prefix_of` q -> q `prefix_of` current -> q <> r ->
                    path_exists (q ++ [".git"])%list = false
      | None =>
          forall q, q `prefix_of` current -> q <> Indexer.parent q ->
                    path_exists (q ++ [".git"])%list = false
      end.
Proof.
  induction current as [|x l IH] using rev_ind; intros fuel Hfuel.
  - destruct fuel as [|fuel]; [simpl in Hfuel; lia|]. simpl.
    exists None. split; [reflexivity|].
    intros q Hq Hne. apply prefix_nil_inv in Hq. subst q. now destruct Hne.
  - destruct fuel as [|fuel]; [lia|]. rewrite length_app in Hfuel.
    simpl in Hfuel. cbn [Indexer.find_repo_root_loop].
    destruct (parent_snoc l x) as [(-> & -> & Hp) | Hp]; rewrite Hp.
    + rewrite bool_decide_eq_false_2 by (intros H; now apply H).
      exists None. split; [reflexivity|].
      intros q Hq Hne. apply (prefix_snoc_inv q [] "/") in Hq as [-> | Hq].
      * now destruct Hne.
      * apply prefix_nil_inv in Hq. subst q. now destruct Hne.
    + assert ((l ++ [x])%list <> l) as Hne.
      { intros E. apply (f_equal length) in E. rewrite length_app in E.
        simpl in E. lia. }
      rewrite bool_decide_eq_true_2 by exact Hne.
      destruct (path_exists ((l ++ [x]) ++ [".git"])%list) eqn:Eg.
      * exists (Some (l ++ [x])%list). split; [reflexivity|].
        split; [exact Eg|]. split; [reflexivity|]. split; [now rewrite Hp|].
        intros q Hq1 Hq2 Hq. destruct Hq.
        now apply (anti_symm prefix).
      * destruct (IH fuel ltac:(lia)) as [res [Hres Hspec]].
        exists res. split; [exact Hres|]. destruct res as [r|].
        -- destruct Hspec as (Hg & Hpre & Hpar & Hbetween).
           split; [exact Hg|]. split; [now apply prefix_app_r|].
           split; [exact Hpar|].
           intros q Hq1 Hq2 Hq.
           apply prefix_snoc_inv in Hq2 as [-> | Hq2]; [exact Eg | auto].
        -- intros q Hq Hq'.
           apply prefix_snoc_inv in Hq as [-> | Hq]; [exact Eg | auto].
Qed.

(** X16. [_find_repo_root] always returns, with the fuel the model gives
    it.  It returns the deepest of the working directory and its
    ancestors that holds a [.git], the file system root left out (the
    loop stops before it looks there); when none does, it returns the
    working directory itself. *)
Theorem find_repo_root_deepest (path_exists : Path -> bool) (cwd : Path) :
  exists r,
    Indexer._find_repo_root path_exists cwd = Some r /\
    r `prefix_of` cwd /\
    ((path_exists (r ++ [".git"])%list = true /\
      r <> Indexer.parent r /\
      forall q, r `prefix_of` q -> q `prefix_of` cwd -> q <> r ->
                path_exists (q ++ [".git"])%list = false)
     \/ (r = cwd /\
         forall q, q `prefix_of` cwd -> q <> Indexer.parent q ->
                   path_exists (q ++ [".git"])%list = false)).
Proof.
  unfold Indexer._find_repo_root.
  destruct (find_repo_root_loop_spec path_exists cwd (S (length cwd))
              ltac:(lia)) as [res [-> Hspec]].
  destruct res as [r|].
  - destruct Hspec as (Hg & Hpre & Hpar & Hbetween).
    exists r. split; [reflexivity|]. split; [exact Hpre|]. left. auto.
  - exists cwd. split; [reflexivity|]. split; [reflexivity|]. right. auto.
Qed.

(** ** Loading and rebuilding *)

(** X17. A persisted file whose top level is not a mapping (an empty
    file, a scalar, a list) is never accepted: [load_index] prints the
    error and returns [None]. *)
Theorem load_index_rejects_non_mapping
    (fromisoformat : string -> option datetime)
    (validate : list (string * pyval) -> option WorkspaceIndex)
    (describe : exn -> string)
    (self : Indexer.FileIndexer) (w : Indexer.world)
    (text : yaml_text) (data : pyval) :
  Indexer.index_file w = Some text ->
  Yaml.safe_load text = Returns data ->
  (forall items, data <> PDict items) ->
  exists e,
    Indexer.load_index fromisoformat validate describe self w
    = (Returns None,
       Indexer.print ("Error loading index: " ++ describe e) w).
Proof.
  intros Hf Hload Hnot.
  rewrite (load_index_of_body _ _ _ self w text Hf).
  assert (exists e, Indexer.load_body fromisoformat validate text = Raises e)
    as [e ->]; [|eauto].
  unfold Indexer.load_body. rewrite Hload. simpl.
  unfold Indexer.convert_date.
  destruct data as [|s|n|d|t|l|items]; simpl; eauto.
  - destruct (PyStr.contains "last_updated" s); simpl; eauto.
    destruct (PyStr.contains "index" s); simpl; eauto.
  - destruct (PyStr.contains "last_updated" (value t)); simpl; eauto.
    destruct (PyStr.contains "index" (value t)); simpl; eauto.
  - destruct (existsb _ l); simpl; eauto.
    destruct (existsb _ l); simpl; eauto.
  - now destruct (Hnot items).
Qed.

Lemma load_index_rejects_non_mapping_witness :
  exists e : exn,
    Indexer.load_index (fun _ => None) (fun _ => None) (fun _ => "")
      (Indexer.init ["/"; "repo"] bare_world)
      (Indexer.mkWorld None (Some []) (Some EmptyStream) 0 [])
    = (Returns None,
       Indexer.print ("Error loading index: " ++ "")
         (Indexer.mkWorld None (Some []) (Some EmptyStream) 0 [])).
Proof.
  apply (load_index_rejects_non_mapping (fun _ => None) (fun _ => None)
           (fun _ => "") (Indexer.init ["/"; "repo"] bare_world)
           (Indexer.mkWorld None (Some []) (Some EmptyStream) 0 [])
           EmptyStream PNone).
  - reflexivity.
  - reflexivity.
  - intros items. discriminate.
Defined.

Lemma create_index_returns_counted
    (match_file : Indexer.PathSpec -> string -> bool)
    (sha256_hexdigest : string -> string)
    (self : Indexer.FileIndexer) (w : Indexer.world) :
  exists idx w',
    Indexer.create_index match_file sha256_hexdigest self w = (Returns idx, w')
    /\ counted idx.
Proof.
  unfold Indexer.create_index.
  destruct (scan_directory_returns match_file sha256_hexdigest self
              (Indexer.print ("Indexing repository at: "
                                ++ Indexer.str_path (Indexer.repo_path self)) w))
    as [found ->].
  eexists. eexists. split; [reflexivity|].
  destruct found as [|fe found _] using rev_ind.
  - reflexivity.
  - rewrite foldl_app. simpl. apply counted_add_file.
Qed.

(** An exception that [save_index] raises leaves
    [get_or_create_index] as it is: nothing around the call catches
    it. *)
Lemma save_failure_escapes
    (match_file : Indexer.PathSpec -> string -> bool)
    (sha256_hexdigest : string -> string)
    (fromisoformat : string -> option datetime)
    (validate : list (string * pyval) -> option WorkspaceIndex)
    (describe : exn -> string)
    (e : exn) (self : Indexer.FileIndexer) (w w1 w2 : Indexer.world)
    (index : WorkspaceIndex) :
  Indexer.load_index fromisoformat validate describe self w
  = (Returns None, w1) ->
  Indexer.create_index match_file sha256_hexdigest self
    (Indexer.print "No existing index found. Creating new index..." w1)
  = (Returns index, w2) ->
  Indexer.get_or_create_index match_file sha256_hexdigest fromisoformat
    validate describe (Some e) self w = (Raises e, w2).
Proof.
  intros Hl Hc. unfold Indexer.get_or_create_index. now rewrite Hl, Hc.
Qed.

(** X18. Whenever [get_or_create_index] returns an index, one of two
    things happened.  Either the persisted file loaded: that index is
    returned and the file is left as it is.  Or the file is missing or
    could not be loaded, and [save_index] did not fail: the index is the
    one [create_index] builds, it is counted, and the persisted file holds
    its dump afterwards. *)
Theorem get_or_create_index_loads_or_rebuilds
    (match_file : Indexer.PathSpec -> string -> bool)
    (sha256_hexdigest : string -> string)
    (fromisoformat : string -> option datetime)
    (validate : list (string * pyval) -> option WorkspaceIndex)
    (describe : exn -> string)
    (failure : option exn)
    (self : Indexer.FileIndexer) (w : Indexer.world)
    (idx : WorkspaceIndex) (w' : Indexer.world) :
  Indexer.get_or_create_index match_file sha256_hexdigest fromisoformat
    validate describe failure self w = (Returns idx, w') ->
  (exists text,
     Indexer.index_file w = Some text /\
     Indexer.load_body fromisoformat validate text = Returns idx /\
     Indexer.index_file w' = Indexer.index_file w)
  \/ (failure = None
      /\ (Indexer.index_file w = None \/
          exists text e,
            Indexer.index_file w = Some text /\
            Indexer.load_body fromisoformat validate text = Raises e)
      /\ (exists w0,
            (Indexer.create_index match_file sha256_hexdigest self w0).1
            = Returns idx /\
            Indexer.listing w0 = Indexer.listing w /\
            Indexer.now w0 = Indexer.now w)
      /\ counted idx
      /\ Indexer.index_file w'
         = Some (Yaml.dump (Indexer.model_dump idx))).
Proof.
  unfold Indexer.get_or_create_index.
  assert (forall w0,
            Indexer.listing w0 = Indexer.listing w ->
            Indexer.now w0 = Indexer.now w ->
            match Indexer.create_index match_file sha256_hexdigest self w0 with
            | (Returns index, w1) =>
                match Indexer.save_index_call failure self index w1 with
                | (Returns _, w2) => (Returns index, w2)
                | (Raises e, w2) => (Raises e, w2)
                end
            | (Raises e, w1) => (Raises e, w1)
            end = (Returns idx, w') ->
            failure = None
            /\ (exists w0',
                  (Indexer.create_index match_file sha256_hexdigest self w0').1
                  = Returns idx /\
                  Indexer.listing w0' = Indexer.listing w /\
                  Indexer.now w0' = Indexer.now w)
            /\ counted idx
            /\ Indexer.index_file w'
               = Some (Yaml.dump (Indexer.model_dump idx))) as Hcreate.
  { intros w0 Hl Hn.
    destruct (create_index_returns_counted match_file sha256_hexdigest
                self w0) as (idx0 & w1 & E & Hc).
    rewrite E. destruct failure as [e|]; simpl; [discriminate|].
    intros [= <- <-]. split; [reflexivity|].
    split; [|split; [exact Hc | reflexivity]].
    exists w0. rewrite E. auto. }
  destruct (Indexer.index_file w) as [text|] eqn:Hf.
  - rewrite (load_index_of_body _ _ _ self w text Hf).
    destruct (Indexer.load_body fromisoformat validate text) as [idx0|e] eqn:Hb.
    + intros [= <- <-]. left. exists text. simpl. auto.
    + intros H. right.
      apply Hcreate in H as (Hn & Hc); [|reflexivity|reflexivity].
      split; [exact Hn|]. split; [|exact Hc]. right. eauto.
  - unfold Indexer.load_index. rewrite Hf. intros H. right.
    apply Hcreate in H as (Hn & Hc); [|reflexivity|reflexivity].
    split; [exact Hn|]. split; [|exact Hc]. now left.
Qed.

Lemma get_or_create_index_loads_or_rebuilds_witness :
  exists idx w',
    Indexer.get_or_create_index (fun _ _ => false) (fun _ => "")
      (fun _ => None) (fun _ => None) (fun _ => "") None
      (Indexer.init ["/"; "repo"]
         (Indexer.mkWorld None (Some sample_listing) None 0 []))
      (Indexer.mkWorld None (Some sample_listing) None 0 [])
    = (Returns idx, w')
    /\ counted idx
    /\ Indexer.index_file w' = Some (Yaml.dump (Indexer.model_dump idx)).
Proof.
  eexists. eexists. split; [vm_compute; reflexivity|].
  destruct (get_or_create_index_loads_or_rebuilds
              (fun _ _ => false) (fun _ => "")
              (fun _ => None) (fun _ => None) (fun _ => "") None
              (Indexer.init ["/"; "repo"]
                 (Indexer.mkWorld None (Some sample_listing) None 0 []))
              (Indexer.mkWorld None (Some sample_listing) None 0 [])
              _ _ eq_refl) as [(text & Hf & _) | (_ & _ & _ & Hc & Hw)].
  - discriminate Hf.
  - split; [exact Hc | exact Hw].
Defined.

(** ** The frame of [add_file] *)

(** X19. [add_file] appends the entry to the list under the key
    [files], which it creates when the dictionary lacks it; it sets
    [total_files] to the new length and touches nothing else: the other
    keys of the dictionary, the version, the time, the repository path
    and the table of extensions stay as they were. *)
Theorem add_file_appends (idx : WorkspaceIndex) (fe : FileEntry) :
  files (add_file idx fe) = (files idx ++ [fe])%list
  /\ total_files (repository (add_file idx fe)) = len (files idx) + 1
  /\ (forall k : string,
        k <> "files" -> index (add_file idx fe) !! k = index idx !! k)
  /\ version (add_file idx fe) = version idx
  /\ last_updated (add_file idx fe) = last_updated idx
  /\ repo_path_str (repository (add_file idx fe))
     = repo_path_str (repository idx)
  /\ file_types (add_file idx fe) = file_types idx.
Proof.
  assert (files (add_file idx fe) = (files idx ++ [fe])%list) as Hf.
  { unfold files, add_file; simpl. rewrite lookup_insert_eq; simpl.
    destruct (index idx !! "files") as [l|] eqn:E; simpl.
    - now rewrite E.
    - now rewrite lookup_insert_eq. }
  split; [exact Hf|]. split; [|split; [|repeat split]].
  - change (total_files (repository (add_file idx fe)))
      with (len (default [] (index (add_file idx fe) !! "files"))).
    fold (files (add_file idx fe)). rewrite Hf. unfold len.
    rewrite length_app. simpl. lia.
  - intros k Hk. unfold add_file; simpl.
    rewrite lookup_insert_ne by congruence.
    destruct (index idx !! "files"); [reflexivity|].
    now rewrite lookup_insert_ne by congruence.
Qed.
